(** * SS IntelliBot (streamlit_app.py): a shallow embedding and its properties

    The application is a Streamlit script: every user event re-runs [main]
    against the ambient per-session store [st.session_state].  The embedding
    below keeps that shape.  The session store is a record, the script is a
    computation in a small state-and-exception monad that also logs the calls
    made to the two hosted services, and the hosted services themselves are
    parameters gathered in [Backend].

    Conventions.
    - Python [str] values are modelled by [string], the byte sequence of the
      text.  The characters the script inspects (the dollar sign, the single
      quote, ASCII letters and white space) are single bytes that never occur
      inside a multi-byte character, so working on bytes agrees with working
      on code points for them.  Python's [str.lower] and [str.strip] depend
      on the Unicode tables of the interpreter; the script takes them from
      its environment ([str_lower], [str_strip]), and every statement holds
      whatever they compute.
    - Page rendering ([st.markdown], [st.info], expanders, CSS, the download
      and feedback widgets) does not touch the session store and is left out.
      The one display that the source guards by a flag, the sidebar text area
      of [query_cortex], is logged. *)

From Stdlib Require Import ZArith Ascii String.
From stdpp Require Import base list strings gmap pretty.

Local Open Scope Z_scope.

(** ** Python built-ins used by the script *)

(** The newline character of the source's string literals. *)
Definition nl : string := String (ascii_of_nat 10) "".

(** [s.replace(old, new)] for a non-empty [old]: scan from the left, replace
    every non-overlapping occurrence.  [skip] counts the characters of the
    occurrence just replaced that are still to be dropped. *)
Fixpoint replace_from (old new : string) (skip : nat) (s : string) : string :=
  match s with
  | EmptyString => EmptyString
  | String c s' =>
      match skip with
      | S k => replace_from old new k s'
      | O =>
          if String.prefix old s
          then new +:+ replace_from old new (String.length old - 1) s'
          else String c (replace_from old new 0 s')
      end
  end.

(** With an empty [old], Python puts [new] before every character and at the
    end. *)
Fixpoint replace_empty (new : string) (s : string) : string :=
  match s with
  | EmptyString => new
  | String c s' => new +:+ String c (replace_empty new s')
  end.

Definition replace (old new : string) (s : string) : string :=
  match old with
  | EmptyString => replace_empty new s
  | String _ _ => replace_from old new 0 s
  end.

(** [sep.join(parts)]. *)
Fixpoint join (sep : string) (parts : list string) : string :=
  match parts with
  | [] => ""
  | x :: rest =>
      match rest with
      | [] => x
      | _ :: _ => x +:+ sep +:+ join sep rest
      end
  end.

(** What [s.lower()] gives on text made of ASCII characters only.  This is
    not the script's [lower] (see [str_lower] below); it serves the example
    deployments, whose column names are ASCII, and the role names. *)
Definition lower_ascii (c : ascii) : ascii :=
  let n := nat_of_ascii c in
  if (Nat.leb 65 n && Nat.leb n 90)%bool then ascii_of_nat (n + 32) else c.

Fixpoint ascii_lower (s : string) : string :=
  match s with
  | EmptyString => EmptyString
  | String c s' => String (lower_ascii c) (ascii_lower s')
  end.

(** What [s.strip()] gives on text made of ASCII characters only: the ASCII
    characters Python counts as white space are 9 to 13, 28 to 31 and the
    space.  Again for the example deployments only (see [str_strip]). *)
Definition is_space (c : ascii) : bool :=
  let n := nat_of_ascii c in
  ((Nat.leb 9 n && Nat.leb n 13) || (Nat.leb 28 n && Nat.leb n 31)
   || Nat.eqb n 32)%bool.

Fixpoint lstrip (s : string) : string :=
  match s with
  | EmptyString => EmptyString
  | String c s' => if is_space c then lstrip s' else s
  end.

Fixpoint rstrip (s : string) : string :=
  match s with
  | EmptyString => EmptyString
  | String c s' =>
      match rstrip s' with
      | EmptyString => if is_space c then EmptyString else String c EmptyString
      | r => String c r
      end
  end.

Definition ascii_strip (s : string) : string := rstrip (lstrip s).

(** [str(n)] inside an f-string, for a non-negative integer. *)
Definition str_of_nat (n : nat) : string := pretty n.

(** [enumerate(xs)], counting from [start]. *)
Fixpoint enumerate_from {A} (start : nat) (xs : list A) : list (nat * A) :=
  match xs with
  | [] => []
  | x :: xs' => (start, x) :: enumerate_from (S start) xs'
  end.

Definition enumerate {A} (xs : list A) : list (nat * A) := enumerate_from 0 xs.

(** A slice bound, as Python normalises it for a sequence of length [len]:
    a negative bound counts from the end, and the result is clamped to
    [0 .. len]. *)
Definition slice_bound (len i : Z) : Z :=
  if i <? 0 then Z.max 0 (i + len) else Z.min i len.

(** [xs[lo:hi]]. *)
Definition slice {A} (xs : list A) (lo hi : Z) : list A :=
  let len := Z.of_nat (length xs) in
  let a := slice_bound len lo in
  let b := slice_bound len hi in
  take (Z.to_nat (b - a)) (drop (Z.to_nat a) xs).

(** Truth value of a Python string and of a Python list. *)
Definition truthy_str (s : string) : bool :=
  match s with EmptyString => false | String _ _ => true end.

Definition truthy_list {A} (xs : list A) : bool :=
  match xs with [] => false | _ :: _ => true end.

(** Number of occurrences of a character, and whether a text occurs inside
    another one ([needle in hay]). *)
Fixpoint count_char (c : ascii) (s : string) : nat :=
  match s with
  | EmptyString => 0
  | String d s' => (if Ascii.eqb c d then 1 else 0) + count_char c s'
  end.

Fixpoint occurs_in (needle hay : string) : bool :=
  (String.prefix needle hay ||
   match hay with
   | EmptyString => false
   | String _ hay' => occurs_in needle hay'
   end)%bool.

(** ** Data model *)

(** A turn is the dictionary [{"role": ..., "content": ...}]; the script only
    ever builds the two roles below. *)
Inductive Role := user | assistant.

Record Turn := { role : Role; content : string }.

Definition is_user (m : Turn) : bool :=
  match role m with user => true | assistant => false end.

(** An entry of [st.session_state.service_metadata]. *)
Record ServiceDescriptor := { name : string; search_column : string }.

(** [st.session_state].  The first four keys are written by the script and
    may be absent; the others are the values of the keyed widgets that
    [init_config] renders on every run.  A select box over an empty option
    list holds [None]. *)
Record SessionState := {
  pinned_messages : option (list Turn);
  messages : option (list Turn);
  service_metadata : option (list ServiceDescriptor);
  uploaded_pdf : option string;
  dark_mode : bool;
  selected_cortex_search_service : option string;
  clear_conversation : bool;
  debug : bool;
  use_chat_history : bool;
  selected_topic : option string;
  model_name : option string;
  num_retrieved_chunks : Z;
  num_chat_messages : Z
}.

(** What the user did to the page before this run of the script. *)
Record Widgets := {
  w_upload : option string;
  w_dark_mode : bool;
  w_service : string;
  w_clear : bool;
  w_debug : bool;
  w_use_chat_history : bool;
  w_topic : string;
  w_model : string;
  w_chunks : Z;
  w_chat_messages : Z;
  w_chat : option string;
  w_summary : bool
}.

Inductive Error :=
  | AttributeError
  | KeyError
  | IndexError
  | StopIteration
  | UpstreamError (msg : string).

Inductive Result (A : Type) :=
  | Ok (a : A)
  | Raise (e : Error).
Arguments Ok {A} a.
Arguments Raise {A} e.

(** A record returned by the search service, and the filter argument of a
    search call: Python dictionaries. *)
Definition SearchRecord : Type := gmap string string.
Definition SearchFilter : Type := gmap string string.

(** What the script takes from its environment.  The hosted collaborators:
    the completion service, the search service (addressed by the selected
    service name), and the two SQL statements of [init_service_metadata]
    ([SHOW CORTEX SEARCH SERVICES] gives the service names,
    [DESC CORTEX SEARCH SERVICE] the [search_column] of each row).  And the
    two string methods of the interpreter that rest on its Unicode tables,
    [str.lower] and [str.strip]: they are left open, so that nothing proved
    below depends on which letters have a lower case or which characters
    count as white space. *)
Record Backend := {
  Complete : option string -> string -> Result string;
  cortex_search :
    option string -> string -> list string -> SearchFilter -> Z ->
    Result (list SearchRecord);
  show_cortex_search_services : Result (list string);
  desc_cortex_search_service : string -> Result (list string);
  str_lower : string -> string;
  str_strip : string -> string
}.

(** Calls to the collaborators and the debug display, in program order. *)
Inductive Event :=
  | EvComplete (model : option string) (prompt : string)
  | EvSearch (service : option string) (query : string)
      (columns : list string) (filter : SearchFilter) (limit : Z)
  | EvShowServices
  | EvDescService (svc_name : string)
  | EvContextDocuments (context : string).

Record World := { session : SessionState; trace : list Event }.

(** ** The script monad: session state, exceptions, event log.

    An exception ends the run; what was written to the session store before
    it stays written. *)
Definition M (A : Type) : Type := World -> Result A * World.

#[global] Instance M_ret : MRet M := fun A a w => (Ok a, w).

#[global] Instance M_bind : MBind M := fun A B k m w =>
  match m w with
  | (Ok a, w') => k a w'
  | (Raise e, w') => (Raise e, w')
  end.

Definition raise {A} (e : Error) : M A := fun w => (Raise e, w).

Definition lift {A} (r : Result A) : M A := fun w => (r, w).

Definition gets {A} (f : SessionState -> A) : M A :=
  fun w => (Ok (f (session w)), w).

(** Reading a key that may be absent. *)
Definition attr {A} (f : SessionState -> option A) : M A :=
  fun w => match f (session w) with
           | Some a => (Ok a, w)
           | None => (Raise AttributeError, w)
           end.

Definition modify (f : SessionState -> SessionState) : M unit :=
  fun w => (Ok tt, {| session := f (session w); trace := trace w |}).

Definition emit (ev : Event) : M unit :=
  fun w => (Ok tt, {| session := session w; trace := trace w ++ [ev] |}).

(** Nothing to do (an [if] without [else]). *)
Definition skip : M unit := mret tt.

(** A comprehension or [for] loop whose body may raise. *)
Fixpoint for_each {A B} (f : A -> M B) (xs : list A) : M (list B) :=
  match xs with
  | [] => mret []
  | x :: xs' => y ← f x; ys ← for_each f xs'; mret (y :: ys)
  end.

(** ** Writes to the session store *)

Definition set_pinned_messages (v : list Turn) (s : SessionState) : SessionState :=
  {| pinned_messages := Some v; messages := messages s;
     service_metadata := service_metadata s; uploaded_pdf := uploaded_pdf s;
     dark_mode := dark_mode s;
     selected_cortex_search_service := selected_cortex_search_service s;
     clear_conversation := clear_conversation s; debug := debug s;
     use_chat_history := use_chat_history s; selected_topic := selected_topic s;
     model_name := model_name s; num_retrieved_chunks := num_retrieved_chunks s;
     num_chat_messages := num_chat_messages s |}.

Definition set_messages (v : list Turn) (s : SessionState) : SessionState :=
  {| pinned_messages := pinned_messages s; messages := Some v;
     service_metadata := service_metadata s; uploaded_pdf := uploaded_pdf s;
     dark_mode := dark_mode s;
     selected_cortex_search_service := selected_cortex_search_service s;
     clear_conversation := clear_conversation s; debug := debug s;
     use_chat_history := use_chat_history s; selected_topic := selected_topic s;
     model_name := model_name s; num_retrieved_chunks := num_retrieved_chunks s;
     num_chat_messages := num_chat_messages s |}.

Definition set_service_metadata (v : list ServiceDescriptor) (s : SessionState)
  : SessionState :=
  {| pinned_messages := pinned_messages s; messages := messages s;
     service_metadata := Some v; uploaded_pdf := uploaded_pdf s;
     dark_mode := dark_mode s;
     selected_cortex_search_service := selected_cortex_search_service s;
     clear_conversation := clear_conversation s; debug := debug s;
     use_chat_history := use_chat_history s; selected_topic := selected_topic s;
     model_name := model_name s; num_retrieved_chunks := num_retrieved_chunks s;
     num_chat_messages := num_chat_messages s |}.

Definition set_uploaded_pdf (v : string) (s : SessionState) : SessionState :=
  {| pinned_messages := pinned_messages s; messages := messages s;
     service_metadata := service_metadata s; uploaded_pdf := Some v;
     dark_mode := dark_mode s;
     selected_cortex_search_service := selected_cortex_search_service s;
     clear_conversation := clear_conversation s; debug := debug s;
     use_chat_history := use_chat_history s; selected_topic := selected_topic s;
     model_name := model_name s; num_retrieved_chunks := num_retrieved_chunks s;
     num_chat_messages := num_chat_messages s |}.

(** ** Streamlit widgets *)

(** [st.selectbox(label, options, key=...)]: the chosen option, the first
    option while nothing valid is chosen, [None] over an empty list. *)
Definition selectbox (options : list string) (choice : string) : option string :=
  if decide (choice ∈ options) then Some choice else head options.

(** [st.slider(label, lo, hi, default, key=...)]: always within [lo .. hi]. *)
Definition slider (lo hi : Z) (v : Z) : Z := Z.max lo (Z.min hi v).

(** [st.chat_input(label, disabled=...)]: a disabled input submits nothing. *)
Definition chat_input (disabled : bool) (typed : option string) : option string :=
  if disabled then None else typed.

Definition MODELS : list string := ["mistral-large2"; "llama3.1-70b"; "llama3.1-8b"].

Definition TOPICS : list string :=
  ["All Topics"; "Database Concepts"; "AWS Framework"; "Python for Beginners";
   "Azure"; "PostgreSQL"; "Kubernetes"; "Pro Git"; "OWASP"].

(** The keyed widgets of [init_config] store their values. *)
Definition store_widgets (ui : Widgets) (md : list ServiceDescriptor)
  (s : SessionState) : SessionState :=
  {| pinned_messages := pinned_messages s; messages := messages s;
     service_metadata := service_metadata s; uploaded_pdf := uploaded_pdf s;
     dark_mode := w_dark_mode ui;
     selected_cortex_search_service := selectbox (map name md) (w_service ui);
     clear_conversation := w_clear ui;
     debug := w_debug ui;
     use_chat_history := w_use_chat_history ui;
     selected_topic := selectbox TOPICS (w_topic ui);
     model_name := selectbox MODELS (w_model ui);
     num_retrieved_chunks := slider 1 10 (w_chunks ui);
     num_chat_messages := slider 1 10 (w_chat_messages ui) |}.

(** ** Prompt templates (the three f-strings of the source) *)

Definition summarize_template (chat_history question : string) : string :=
  nl +:+ "    [INST]" +:+ nl
  +:+ "    Extend the user question using the chat history." +:+ nl
  +:+ "    <chat_history>" +:+ chat_history +:+ "</chat_history>" +:+ nl
  +:+ "    <question>" +:+ question +:+ "</question>" +:+ nl
  +:+ "    [/INST]" +:+ nl
  +:+ "    ".

Definition prompt_template (chat_text context question : string) : string :=
  nl +:+ "    [INST]" +:+ nl
  +:+ "    You are SS IntelliBot, a helpful AI assistant with access to PDF-based knowledge." +:+ nl
  +:+ "    Use the provided <context> and <chat_history> to answer user questions." +:+ nl
  +:+ "    Respond clearly, briefly, and helpfully." +:+ nl
  +:+ nl
  +:+ "    <chat_history>" +:+ chat_text +:+ "</chat_history>" +:+ nl
  +:+ "    <context>" +:+ context +:+ "</context>" +:+ nl
  +:+ "    <question>" +:+ question +:+ "</question>" +:+ nl
  +:+ "    [/INST]" +:+ nl
  +:+ "    Answer:" +:+ nl
  +:+ "    ".

Definition summary_template (formatted_history : string) : string :=
  nl +:+ "    [INST]" +:+ nl
  +:+ "    You are an expert summarizer. Summarize the following chat conversation into 5-7 key bullet points that capture the main ideas and solutions shared by the assistant. Be concise, and do not repeat." +:+ nl
  +:+ "    <chat_history>" +:+ nl
  +:+ "    " +:+ formatted_history +:+ nl
  +:+ "    </chat_history>" +:+ nl
  +:+ "    Your output should look like:" +:+ nl
  +:+ "    - Point 1" +:+ nl
  +:+ "    - Point 2" +:+ nl
  +:+ "    ..." +:+ nl
  +:+ "    [/INST]" +:+ nl
  +:+ "    ".

(** One snippet block of the context, [f"Context {i+1}: {r[search_col]}"]. *)
Definition context_block (i : nat) (text : string) : string :=
  "Context " +:+ str_of_nat (i + 1) +:+ ": " +:+ text.

(** The separator between blocks. *)
Definition block_sep : string := nl +:+ nl.

(** ** The functions of the script *)

Section Script.

Variable B : Backend.

(** [complete(model, prompt)] *)
Definition complete (model : option string) (prompt : string) : M string :=
  emit (EvComplete model prompt);;
  text ← lift (Complete B model prompt);
  mret (replace "$" "\$" text).

(** [init_messages()] *)
Definition init_messages : M unit :=
  pinned ← gets pinned_messages;
  match pinned with
  | None => modify (set_pinned_messages [])
  | Some _ => skip
  end;;
  clear ← gets clear_conversation;
  msgs ← gets messages;
  if (clear || negb (bool_decide (is_Some msgs)))%bool
  then modify (set_messages [])
  else skip.

(** [init_service_metadata()] *)
Definition describe_service (svc_name : string) : M ServiceDescriptor :=
  emit (EvDescService svc_name);;
  rows ← lift (desc_cortex_search_service B svc_name);
  match rows with
  | [] => raise IndexError
  | search_col :: _ => mret {| name := svc_name; search_column := search_col |}
  end.

Definition init_service_metadata : M unit :=
  known ← gets service_metadata;
  match known with
  | Some _ => skip
  | None =>
      emit EvShowServices;;
      services ← lift (show_cortex_search_services B);
      metadata ← for_each describe_service services;
      modify (set_service_metadata metadata)
  end.

(** [get_chat_history()] *)
Definition get_chat_history : M (list Turn) :=
  msgs ← attr messages;
  n ← gets num_chat_messages;
  mret (slice msgs (- n) (-1)).

(** [summarize_chat(chat_history, question)] *)
Definition summarize_chat (chat_history question : string) : M string :=
  model ← gets model_name;
  complete model (summarize_template chat_history question).

(** [query_cortex(query, columns=[], filter={})] *)
Definition find_search_column (svc : option string)
  (metadata : list ServiceDescriptor) : M string :=
  match List.find (fun s => bool_decide (Some (name s) = svc)) metadata with
  | Some s => mret (str_lower B (search_column s))
  | None => raise StopIteration
  end.

Definition render_block (search_col : string) (ir : nat * SearchRecord) : M string :=
  match snd ir !! search_col with
  | Some text => mret (context_block (fst ir) text)
  | None => raise KeyError
  end.

Definition query_cortex (query : string) (columns : list string)
  (filter : SearchFilter) : M string :=
  svc ← gets selected_cortex_search_service;
  limit ← gets num_retrieved_chunks;
  emit (EvSearch svc query columns filter limit);;
  results ← lift (cortex_search B svc query columns filter limit);
  metadata ← attr service_metadata;
  search_col ← find_search_column svc metadata;
  blocks ← for_each (render_block search_col) (enumerate results);
  let context := join block_sep blocks in
  dbg ← gets debug;
  (if dbg : bool then emit (EvContextDocuments context) else skip);;
  mret context.

(** The text placed in the [<chat_history>] tag by [build_prompt]. *)
Definition chat_text_of (chat_history : list Turn) : string :=
  join nl (map content (List.filter is_user chat_history)).

(** [build_prompt(question)] *)
Definition build_prompt (question : string) : M string :=
  use_history ← gets use_chat_history;
  chat_history ← (if use_history : bool then get_chat_history else mret []);
  let chat_text := chat_text_of chat_history in
  summary ← (if truthy_list chat_history
             then summarize_chat chat_text question
             else mret question);
  context ← query_cortex summary [] ∅;
  mret (prompt_template chat_text context question).

(** [init_config()] *)
Definition init_config (ui : Widgets) : M unit :=
  metadata ← attr service_metadata;
  modify (store_widgets ui metadata).

(** [handle_uploaded_pdf()] *)
Definition handle_uploaded_pdf (uploaded_file : option string) : M unit :=
  match uploaded_file with
  | Some file_name => modify (set_uploaded_pdf file_name)
  | None => skip
  end.

(** [generate_summary()] *)
Definition format_turn (m : Turn) : string :=
  (if is_user m then "User" else "Assistant") +:+ ": " +:+ content m +:+ nl.

Definition generate_summary : M string :=
  full_history ← attr messages;
  let formatted_history :=
    fold_left (fun acc m => acc +:+ format_turn m) full_history "" in
  model ← gets model_name;
  summary ← complete model (summary_template formatted_history);
  mret (str_strip B summary).

(** [st.session_state.messages.append(turn)] *)
Definition append_message (t : Turn) : M unit :=
  msgs ← attr messages;
  modify (set_messages (msgs ++ [t])).

(** The body of [if question := st.chat_input(...)] in [main]. *)
Definition answer (question : string) : M unit :=
  append_message {| role := user; content := question |};;
  prompt ← build_prompt (replace "'" "" question);
  model ← gets model_name;
  reply ← complete model prompt;
  append_message {| role := assistant; content := reply |}.

(** [main()], one run of the script. *)
Definition main (ui : Widgets) : M unit :=
  handle_uploaded_pdf (w_upload ui);;
  init_service_metadata;;
  init_config ui;;
  init_messages;;
  metadata ← attr service_metadata;
  let disable_chat := negb (truthy_list metadata) in
  match chat_input disable_chat (w_chat ui) with
  | Some question => if truthy_str question then answer question else skip
  | None => skip
  end;;
  msgs ← attr messages;
  if (truthy_list msgs && w_summary ui)%bool
  then generate_summary;; skip
  else skip.

End Script.

(** The Conversation of a session: empty until [messages] is created. *)
Definition conversation (w : World) : list Turn :=
  default [] (messages (session w)).

(** A fresh session: nothing stored, the widgets at their defaults. *)
Definition fresh_session : SessionState :=
  {| pinned_messages := None; messages := None; service_metadata := None;
     uploaded_pdf := None; dark_mode := false;
     selected_cortex_search_service := None; clear_conversation := false;
     debug := false; use_chat_history := true;
     selected_topic := Some "All Topics"; model_name := Some "mistral-large2";
     num_retrieved_chunks := 5; num_chat_messages := 5 |}.

Definition fresh_world : World := {| session := fresh_session; trace := [] |}.

(** Successive runs of the script; each run sees its own widget values and
    the collaborators as they answer at that time. *)
Fixpoint run_all (steps : list (Backend * Widgets)) (w : World) : World :=
  match steps with
  | [] => w
  | (B, ui) :: rest => run_all rest (snd (main B ui w))
  end.

(** ** Notions used in the statements *)

(** Replace every character [a] by the text [new], and leave every other
    character as it is. *)
Fixpoint substitute_char (a : ascii) (new : string) (s : string) : string :=
  match s with
  | EmptyString => EmptyString
  | String c s' =>
      if Ascii.eqb a c then new +:+ substitute_char a new s'
      else String c (substitute_char a new s')
  end.

(** Undo one level of escaping: a backslash directly before a dollar sign
    is dropped. *)
Fixpoint unescape_dollar (s : string) : string :=
  match s with
  | EmptyString => EmptyString
  | String c s' =>
      match s' with
      | String d _ =>
          if (Ascii.eqb c "\" && Ascii.eqb d "$")%bool
          then unescape_dollar s'
          else String c (unescape_dollar s')
      | EmptyString => String c EmptyString
      end
  end.


(** The last [n] elements of a sequence, and a sequence without its last
    element. *)
Definition last_n {A} (n : nat) (xs : list A) : list A :=
  drop (length xs - n) xs.

Definition without_last {A} (xs : list A) : list A :=
  take (length xs - 1) xs.

(** [steps R m]: whatever the outcome, running [m] takes a world to a world
    related to it by [R]. *)
Definition steps (R : relation World) {A} (m : M A) : Prop :=
  ∀ w, R w (snd (m w)).

(** The session store is as it was. *)
Definition same_session : relation World :=
  λ w w', session w' = session w.

(** The log was only appended to, with events satisfying [P]. *)
Definition log_grows (P : Event → Prop) : relation World :=
  λ w w', ∃ evs, trace w' = trace w ++ evs ∧ Forall P evs.

(** The Conversation was only appended to. *)
Definition conversation_grows : relation World :=
  λ w w', conversation w `prefix_of` conversation w'.

(** A search call made with the empty filter (any other event passes). *)
Definition unfiltered (ev : Event) : Prop :=
  match ev with
  | EvSearch _ _ _ filter _ => filter = ∅
  | _ => True
  end.

(** The first part of [main], up to and including [init_messages], and the
    rest of it. *)
Definition setup (B : Backend) (ui : Widgets) : M unit :=
  handle_uploaded_pdf (w_upload ui);;
  init_service_metadata B;;
  init_config ui;;
  init_messages.

Definition chat_section (B : Backend) (ui : Widgets) : M unit :=
  metadata ← attr service_metadata;
  let disable_chat := negb (truthy_list metadata) in
  match chat_input disable_chat (w_chat ui) with
  | Some question => if truthy_str question then answer B question else skip
  | None => skip
  end.

Definition summary_section (B : Backend) (ui : Widgets) : M unit :=
  msgs ← attr messages;
  if (truthy_list msgs && w_summary ui)%bool
  then generate_summary B;; skip
  else skip.

Definition interact (B : Backend) (ui : Widgets) : M unit :=
  chat_section B ui;; summary_section B ui.

(** Writing single widget keys, and applying a change of the session to a
    world. *)
Definition set_debug (v : bool) (s : SessionState) : SessionState :=
  {| pinned_messages := pinned_messages s; messages := messages s;
     service_metadata := service_metadata s; uploaded_pdf := uploaded_pdf s;
     dark_mode := dark_mode s;
     selected_cortex_search_service := selected_cortex_search_service s;
     clear_conversation := clear_conversation s; debug := v;
     use_chat_history := use_chat_history s; selected_topic := selected_topic s;
     model_name := model_name s; num_retrieved_chunks := num_retrieved_chunks s;
     num_chat_messages := num_chat_messages s |}.

Definition set_selected_topic (v : option string) (s : SessionState)
  : SessionState :=
  {| pinned_messages := pinned_messages s; messages := messages s;
     service_metadata := service_metadata s; uploaded_pdf := uploaded_pdf s;
     dark_mode := dark_mode s;
     selected_cortex_search_service := selected_cortex_search_service s;
     clear_conversation := clear_conversation s; debug := debug s;
     use_chat_history := use_chat_history s; selected_topic := v;
     model_name := model_name s; num_retrieved_chunks := num_retrieved_chunks s;
     num_chat_messages := num_chat_messages s |}.

Definition in_session (g : SessionState → SessionState) (w : World) : World :=
  {| session := g (session w); trace := trace w |}.

(** The same widget values with another choice in the topic select box. *)
Definition with_topic (t : string) (ui : Widgets) : Widgets :=
  {| w_upload := w_upload ui; w_dark_mode := w_dark_mode ui;
     w_service := w_service ui; w_clear := w_clear ui; w_debug := w_debug ui;
     w_use_chat_history := w_use_chat_history ui; w_topic := t;
     w_model := w_model ui; w_chunks := w_chunks ui;
     w_chat_messages := w_chat_messages ui; w_chat := w_chat ui;
     w_summary := w_summary ui |}.

(** Two worlds agree when they have the same log and the same session
    store up to the selected topic; two computations are indistinguishable
    when, from worlds that agree, they give the same result and worlds that
    agree. *)
Definition agree (w1 w2 : World) : Prop :=
  trace w1 = trace w2
  ∧ set_selected_topic None (session w1) = set_selected_topic None (session w2).

Definition indistinguishable {A} (m1 m2 : M A) : Prop :=
  ∀ w1 w2, agree w1 w2 →
    fst (m1 w1) = fst (m2 w2) ∧ agree (snd (m1 w1)) (snd (m2 w2)).

(** ** A concrete deployment, used to run the script on examples *)

Definition demo_matches : list string :=
  ["alpha"; "beta"; "gamma"; "delta"; "epsilon"; "zeta"; "eta"; "theta"].

(** One search service [DOCS] with search column [CHUNK] holding eight
    matches; the service honours [limit].  The model answers every prompt
    with the same sentence. *)
Definition demo_backend : Backend :=
  {| Complete := fun _ _ => Ok "It costs $5.";
     cortex_search := fun svc _ _ _ limit =>
       if bool_decide (svc = Some "DOCS")
       then Ok (take (Z.to_nat limit)
                  (map (fun t => ({[ "chunk" := t ]} : gmap string string))
                     demo_matches))
       else Raise (UpstreamError "unknown service");
     show_cortex_search_services := Ok ["DOCS"];
     desc_cortex_search_service := fun _ => Ok ["CHUNK"];
     str_lower := ascii_lower;
     str_strip := ascii_strip |}.

(** A deployment without any search service. *)
Definition bare_backend : Backend :=
  {| Complete := fun _ _ => Ok "";
     cortex_search := fun _ _ _ _ _ => Raise (UpstreamError "unknown service");
     show_cortex_search_services := Ok [];
     desc_cortex_search_service := fun _ => Ok [];
     str_lower := ascii_lower;
     str_strip := ascii_strip |}.

(** Default widget values, with an optional chat submission. *)
Definition demo_widgets (typed : option string) : Widgets :=
  {| w_upload := None; w_dark_mode := false; w_service := "DOCS";
     w_clear := false; w_debug := false; w_use_chat_history := true;
     w_topic := "All Topics"; w_model := "mistral-large2";
     w_chunks := 5; w_chat_messages := 5; w_chat := typed;
     w_summary := false |}.

(** The session of the demo deployment once the page has been rendered:
    the service is discovered and selected, the Conversation is [msgs]. *)
Definition demo_metadata : list ServiceDescriptor :=
  [ {| name := "DOCS"; search_column := "CHUNK" |} ].

Definition demo_session (msgs : list Turn) : SessionState :=
  set_messages msgs
    (set_pinned_messages []
       (store_widgets (demo_widgets None) demo_metadata
          (set_service_metadata demo_metadata fresh_session))).

Definition demo_world (msgs : list Turn) : World :=
  {| session := demo_session msgs; trace := [] |}.

(** The five records the demo service returns under the default limit. *)
Definition demo_results : list SearchRecord :=
  map (fun t => ({[ "chunk" := t ]} : gmap string string))
    ["alpha"; "beta"; "gamma"; "delta"; "epsilon"].


(** A Conversation used in the examples: one exchange, then a new question
    that has just been appended. *)
Definition demo_exchange : list Turn :=
  [ {| role := user; content := "hello" |};
    {| role := assistant; content := "hi there" |};
    {| role := user; content := "and OWASP?" |} ].

(** The demo session with another service in its metadata than the one
    selected, and a deployment whose records carry the search column under
    its upper-case name. *)
Definition demo_world_stale : World :=
  {| session := set_service_metadata
                  [ {| name := "HANDBOOK"; search_column := "TEXT" |} ]
                  (demo_session []);
     trace := [] |}.

Definition upper_case_backend : Backend :=
  {| Complete := fun _ _ => Ok "It costs $5.";
     cortex_search := fun _ _ _ _ _ =>
       Ok [ ({[ "CHUNK" := "alpha" ]} : gmap string string) ];
     show_cortex_search_services := Ok ["DOCS"];
     desc_cortex_search_service := fun _ => Ok ["CHUNK"];
     str_lower := ascii_lower;
     str_strip := ascii_strip |}.

(** A deployment whose model is out of service. *)
Definition silent_model_backend : Backend :=
  {| Complete := fun _ _ => Raise (UpstreamError "model unavailable");
     cortex_search := cortex_search demo_backend;
     show_cortex_search_services := Ok ["DOCS"];
     desc_cortex_search_service := fun _ => Ok ["CHUNK"];
     str_lower := ascii_lower;
     str_strip := ascii_strip |}.

(** [guarded I P]: if the session store satisfied [I] before, it satisfies
    [I] after, and the log was only appended to, with events satisfying
    [P]. *)
Definition guarded (I : SessionState → Prop) (P : Event → Prop) : relation World :=
  λ w w', I (session w) →
    I (session w') ∧ ∃ evs, trace w' = trace w ++ evs ∧ Forall P evs.

(** An event other than the two statements of service discovery. *)
Definition not_discovery (ev : Event) : Prop :=
  match ev with
  | EvShowServices | EvDescService _ => False
  | _ => True
  end.

(** The descriptor stored for a service. *)
Definition descriptor (svc_name search_col : string) : ServiceDescriptor :=
  {| name := svc_name; search_column := search_col |}.

(** Two services, the second of which has no row to describe it. *)
Definition half_described_backend : Backend :=
  {| Complete := fun _ _ => Ok "";
     cortex_search := fun _ _ _ _ _ => Ok [];
     show_cortex_search_services := Ok ["DOCS"; "DRAFTS"];
     desc_cortex_search_service := fun svc =>
       if bool_decide (svc = "DOCS") then Ok ["CHUNK"] else Ok [];
     str_lower := ascii_lower;
     str_strip := ascii_strip |}.

(** ** The transcript texts *)

(** The role as the string stored in a turn, and [s.capitalize()] on ASCII
    letters. *)
Definition role_str (r : Role) : string :=
  match r with user => "user" | assistant => "assistant" end.

Definition upper_ascii (c : ascii) : ascii :=
  let n := nat_of_ascii c in
  if (Nat.leb 97 n && Nat.leb n 122)%bool then ascii_of_nat (n - 32) else c.

Definition capitalize (s : string) : string :=
  match s with
  | EmptyString => EmptyString
  | String c s' => String (upper_ascii c) (ascii_lower s')
  end.

(** The text offered by the download button in [main]:
    ["\n".join(f"{m['role'].capitalize()}: {m['content']}" ...)]. *)
Definition full_chat (msgs : list Turn) : string :=
  join nl (map (fun m => capitalize (role_str (role m)) +:+ ": " +:+ content m)
             msgs).

(** The [formatted_history] built by the loop of [generate_summary]. *)
Definition formatted_history (msgs : list Turn) : string :=
  fold_left (fun acc m => acc +:+ format_turn m) msgs "".

(** A text without the occurrences of one character. *)
Fixpoint without_char (a : ascii) (s : string) : string :=
  match s with
  | EmptyString => EmptyString
  | String c s' =>
      if Ascii.eqb a c then without_char a s' else String c (without_char a s')
  end.

(** Both sliders within their bounds. *)
Definition sliders_in_range (s : SessionState) : Prop :=
  1 ≤ num_retrieved_chunks s ≤ 10 ∧ 1 ≤ num_chat_messages s ≤ 10.

(** Agreement of two worlds up to a part of the session store that [erase]
    blanks out, and computations that cannot be told apart by an observer
    who does not see that part. *)
Definition agree_upto (erase : SessionState → SessionState) (w1 w2 : World) : Prop :=
  trace w1 = trace w2 ∧ erase (session w1) = erase (session w2).

Definition alike (erase : SessionState → SessionState) {A} (m1 m2 : M A) : Prop :=
  ∀ w1 w2, agree_upto erase w1 w2 →
    fst (m1 w1) = fst (m2 w2) ∧ agree_upto erase (snd (m1 w1)) (snd (m2 w2)).

(** Blanking out the recorded upload, and the same widget values with
    another file (or none) in the uploader. *)
Definition forget_upload (s : SessionState) : SessionState :=
  {| pinned_messages := pinned_messages s; messages := messages s;
     service_metadata := service_metadata s; uploaded_pdf := None;
     dark_mode := dark_mode s;
     selected_cortex_search_service := selected_cortex_search_service s;
     clear_conversation := clear_conversation s; debug := debug s;
     use_chat_history := use_chat_history s; selected_topic := selected_topic s;
     model_name := model_name s; num_retrieved_chunks := num_retrieved_chunks s;
     num_chat_messages := num_chat_messages s |}.

Definition with_upload (file : option string) (ui : Widgets) : Widgets :=
  {| w_upload := file; w_dark_mode := w_dark_mode ui;
     w_service := w_service ui; w_clear := w_clear ui; w_debug := w_debug ui;
     w_use_chat_history := w_use_chat_history ui; w_topic := w_topic ui;
     w_model := w_model ui; w_chunks := w_chunks ui;
     w_chat_messages := w_chat_messages ui; w_chat := w_chat ui;
     w_summary := w_summary ui |}.

(** * Properties *)

(** ** Text helpers *)

Lemma string_app_cons (c : ascii) (s t : string) :
  String c s +:+ t = String c (s +:+ t).
Proof. reflexivity. Qed.

Lemma string_app_assoc (s t u : string) : (s +:+ t) +:+ u = s +:+ t +:+ u.
Proof.
  induction s as [|c s IH]; [done|]. rewrite !string_app_cons. by f_equal.
Qed.

Lemma string_app_nil_r (s : string) : s +:+ "" = s.
Proof.
  induction s as [|c s IH]; [done|]. rewrite string_app_cons. by f_equal.
Qed.

Lemma prefix_empty (s : string) : String.prefix "" s = true.
Proof. by destruct s. Qed.

Lemma prefix_single_char (a c : ascii) (s : string) :
  String.prefix (String a "") (String c s) = Ascii.eqb a c.
Proof.
  simpl. destruct (ascii_dec a c) as [->|Hne].
  - by rewrite prefix_empty, Ascii.eqb_refl.
  - symmetry. by apply Ascii.eqb_neq.
Qed.

Lemma replace_single_char (a : ascii) (new s : string) :
  replace (String a "") new s = substitute_char a new s.
Proof.
  unfold replace. induction s as [|c s IH]; [done|].
  cbn [replace_from substitute_char String.length Nat.sub].
  rewrite prefix_single_char, IH. by destruct (Ascii.eqb a c).
Qed.

Lemma substitute_char_delete (a : ascii) (s : string) :
  count_char a (substitute_char a "" s) = 0%nat.
Proof.
  induction s as [|c s IH]; [done|]. cbn [substitute_char].
  destruct (Ascii.eqb a c) eqn:E; [done|]. cbn [count_char]. by rewrite E, IH.
Qed.

(** ** Escaping of the dollar sign *)

Lemma escape_not_dollar_first (s : string) :
  match substitute_char "$" "\$" s with
  | String d _ => Ascii.eqb d "$" = false
  | EmptyString => True
  end.
Proof.
  destruct s as [|c s]; [done|]. cbn [substitute_char].
  destruct (Ascii.eqb "$" c) eqn:E; [done|].
  by rewrite Ascii.eqb_sym.
Qed.

Lemma unescape_escape (s : string) :
  unescape_dollar (substitute_char "$" "\$" s) = s.
Proof.
  induction s as [|c s IH]; [done|].
  cbn [substitute_char]. destruct (Ascii.eqb "$" c) eqn:E.
  - apply Ascii.eqb_eq in E as <-.
    change ("\$" +:+ ?t) with (String "\" (String "$" t)).
    cbn [unescape_dollar]. cbn [Ascii.eqb Bool.eqb andb].
    fold unescape_dollar. rewrite IH.
    destruct (substitute_char "$" "\$" s) eqn:Hs; [|done].
    simpl in IH. by subst.
  - cbn [unescape_dollar]. fold unescape_dollar.
    pose proof (escape_not_dollar_first s) as Hd.
    destruct (substitute_char "$" "\$" s) as [|d r] eqn:Hs.
    + simpl in IH. by subst.
    + rewrite Hd, andb_false_r. by rewrite IH.
Qed.

Lemma escape_count (s : string) :
  count_char "$" (substitute_char "$" "\$" s) = count_char "$" s
  ∧ String.length (substitute_char "$" "\$" s)
    = (String.length s + count_char "$" s)%nat.
Proof.
  induction s as [|c s [IH1 IH2]]; [done|].
  cbn [substitute_char count_char]. destruct (Ascii.eqb "$" c) eqn:E.
  - change ("\$" +:+ ?t) with (String "\" (String "$" t)).
    cbn [count_char String.length]. rewrite IH1, IH2.
    cbn [Ascii.eqb Bool.eqb andb]. split; lia.
  - cbn [count_char String.length]. rewrite E, IH1, IH2. split; lia.
Qed.

(** ** Running the script monad *)

Ltac run_script :=
  unfold skip;
  unfold mbind, M_bind, mret, M_ret, gets, attr, emit, lift, modify, raise;
  cbn [fst snd session trace].

(** C4.  For every text returned by the completion service, [complete]
    returns that text with each dollar sign turned into backslash-dollar and
    every other character kept: the output is the character-wise
    substitution, removing one backslash before each dollar sign gives the
    service's text back, the number of dollar signs is unchanged and the
    length grows by exactly that number. *)
Theorem complete_escapes_each_dollar_once
  (B : Backend) (model : option string) (prompt text : string) (w : World) :
  Complete B model prompt = Ok text →
  ∃ out,
    fst (complete B model prompt w) = Ok out
    ∧ out = substitute_char "$" "\$" text
    ∧ unescape_dollar out = text
    ∧ count_char "$" out = count_char "$" text
    ∧ String.length out = (String.length text + count_char "$" text)%nat.
Proof.
  intros Hc. exists (substitute_char "$" "\$" text).
  split; [|split; [done|split; [apply unescape_escape|apply escape_count]]].
  unfold complete. run_script. rewrite Hc. cbn [fst].
  f_equal. apply (replace_single_char "$").
Qed.

Lemma complete_escapes_each_dollar_once_witness :
  ∃ out,
    fst (complete demo_backend (Some "mistral-large2") "price?" fresh_world) = Ok out
    ∧ out = "It costs \$5."
    ∧ unescape_dollar out = "It costs $5."
    ∧ count_char "$" out = 1%nat
    ∧ String.length out = 13%nat.
Proof.
  exact (complete_escapes_each_dollar_once demo_backend (Some "mistral-large2")
           "price?" "It costs $5." fresh_world eq_refl).
Defined.

(** ** The history window *)

Lemma slice_history_window {A} (xs : list A) (n : Z) :
  1 ≤ n →
  slice xs (- n) (-1) = without_last (last_n (Z.to_nat n) xs).
Proof.
  intros Hn. unfold slice, without_last, last_n, slice_bound.
  rewrite length_drop.
  destruct (Z.ltb_spec (- n) 0) as [_|?]; [|lia].
  destruct (Z.ltb_spec (-1) 0) as [_|?]; [|lia].
  f_equal; [lia|f_equal; lia].
Qed.

(** C3.  With the history slider at [n] in 1..10, [get_chat_history]
    returns the last [n] turns of the Conversation without the most recent
    one.  The window holds [min n L - 1] turns, each taken from a position
    before the last one, in order; it is empty when [L] is 0 or 1. *)
Theorem get_chat_history_excludes_latest (w : World) (msgs : list Turn) (n : Z) :
  messages (session w) = Some msgs →
  num_chat_messages (session w) = n →
  1 ≤ n ≤ 10 →
  ∃ h,
    get_chat_history w = (Ok h, w)
    ∧ h = without_last (last_n (Z.to_nat n) msgs)
    ∧ length h = (Nat.min (Z.to_nat n) (length msgs) - 1)%nat
    ∧ (∀ i, (i < length h)%nat →
         let j := (length msgs - Nat.min (Z.to_nat n) (length msgs) + i)%nat in
         h !! i = msgs !! j ∧ (j < length msgs - 1)%nat)
    ∧ ((length msgs ≤ 1)%nat → h = []).
Proof.
  intros Hm Hn Hr. exists (without_last (last_n (Z.to_nat n) msgs)).
  assert (Hlen : length (without_last (last_n (Z.to_nat n) msgs))
                 = (Nat.min (Z.to_nat n) (length msgs) - 1)%nat).
  { unfold without_last, last_n. rewrite length_take, length_drop. lia. }
  split; [|split; [done|split; [done|split]]].
  - unfold get_chat_history. run_script. rewrite Hm, Hn.
    by rewrite slice_history_window by lia.
  - intros i Hi j. rewrite Hlen in Hi. split; [|subst j; lia].
    unfold without_last, last_n. rewrite length_drop.
    rewrite lookup_take_lt by lia. rewrite lookup_drop. f_equal. subst j. lia.
  - intros HL. apply length_zero_iff_nil. rewrite Hlen. lia.
Qed.

Lemma get_chat_history_excludes_latest_witness :
  ∃ h,
    get_chat_history
      {| session := set_messages
           [ {| role := user; content := "q1" |};
             {| role := assistant; content := "a1" |};
             {| role := user; content := "q2" |} ] fresh_session;
         trace := [] |}
    = (Ok h, {| session := set_messages
           [ {| role := user; content := "q1" |};
             {| role := assistant; content := "a1" |};
             {| role := user; content := "q2" |} ] fresh_session;
         trace := [] |})
    ∧ h = [ {| role := user; content := "q1" |};
            {| role := assistant; content := "a1" |} ].
Proof.
  destruct (get_chat_history_excludes_latest
              {| session := set_messages
                   [ {| role := user; content := "q1" |};
                     {| role := assistant; content := "a1" |};
                     {| role := user; content := "q2" |} ] fresh_session;
                 trace := [] |}
              [ {| role := user; content := "q1" |};
                {| role := assistant; content := "a1" |};
                {| role := user; content := "q2" |} ] 5 eq_refl eq_refl
              ltac:(lia)) as (h & Hrun & Hh & _).
  exists h. split; [exact Hrun|]. rewrite Hh. reflexivity.
Defined.

(** ** Retrieval *)













(** ** Clearing the chat *)

Lemma init_messages_run (w : World) :
  init_messages w
  = (Ok tt,
     {| session :=
          (if (clear_conversation (session w)
               || negb (bool_decide (is_Some (messages (session w)))))%bool
           then set_messages [] else id)
            (match pinned_messages (session w) with
             | None => set_pinned_messages [] (session w)
             | Some _ => session w
             end);
        trace := trace w |}).
Proof.
  unfold init_messages. destruct w as [[pinned msgs ? ? ? ? clear] tr].
  run_script. by destruct pinned, clear, msgs.
Qed.

(** ** Stepwise reasoning about the script *)

#[global] Instance same_session_preorder : PreOrder same_session.
Proof.
  split; [by intros w|]. intros w1 w2 w3 H12 H23.
  unfold same_session in *. congruence.
Qed.

#[global] Instance log_grows_preorder (P : Event → Prop) : PreOrder (log_grows P).
Proof.
  split.
  - intros w. exists []. by rewrite app_nil_r.
  - intros w1 w2 w3 (e1 & H1 & F1) (e2 & H2 & F2). exists (e1 ++ e2).
    split; [by rewrite H2, H1, app_assoc|]. by apply Forall_app.
Qed.

#[global] Instance conversation_grows_preorder : PreOrder conversation_grows.
Proof.
  split; [intros w; unfold conversation_grows; reflexivity|].
  intros w1 w2 w3 H12 H23. unfold conversation_grows in *. by etrans.
Qed.

Section Steps.
Context (R : relation World) `{!PreOrder R}.

Lemma steps_ret {A} (a : A) : steps R (mret a).
Proof. intros w. reflexivity. Qed.

Lemma steps_skip : steps R skip.
Proof. intros w. reflexivity. Qed.

Lemma steps_raise {A} (e : Error) : steps R (@raise A e).
Proof. intros w. reflexivity. Qed.

Lemma steps_lift {A} (r : Result A) : steps R (lift r).
Proof. intros w. reflexivity. Qed.

Lemma steps_gets {A} (f : SessionState → A) : steps R (gets f).
Proof. intros w. reflexivity. Qed.

Lemma steps_attr {A} (f : SessionState → option A) : steps R (attr f).
Proof. intros w. unfold attr. destruct (f (session w)); reflexivity. Qed.

Lemma steps_bind {A C} (m : M A) (k : A → M C) :
  steps R m → (∀ a, steps R (k a)) → steps R (m ≫= k).
Proof.
  intros Hm Hk w. unfold mbind, M_bind.
  specialize (Hm w). destruct (m w) as [[a|e] w']; cbn [snd] in *; [|exact Hm].
  etrans; [exact Hm|apply Hk].
Qed.

Lemma steps_for_each {A C} (f : A → M C) (xs : list A) :
  (∀ x, steps R (f x)) → steps R (for_each f xs).
Proof.
  intros Hf. induction xs as [|x xs IH]; cbn [for_each]; [apply steps_ret|].
  apply steps_bind; [apply Hf|]. intros y.
  apply steps_bind; [apply IH|]. intros ys. apply steps_ret.
Qed.
End Steps.

(** What the two primitive effects do to each relation. *)
Lemma emit_same_session (ev : Event) : steps same_session (emit ev).
Proof. by intros w. Qed.

Lemma emit_conversation (ev : Event) : steps conversation_grows (emit ev).
Proof. intros w. unfold conversation_grows, conversation. reflexivity. Qed.

Lemma emit_log (P : Event → Prop) (ev : Event) :
  P ev → steps (log_grows P) (emit ev).
Proof. intros Hev w. exists [ev]. split; [done|]. by constructor. Qed.

Lemma modify_log (P : Event → Prop) (h : SessionState → SessionState) :
  steps (log_grows P) (modify h).
Proof. intros w. exists []. cbn. by rewrite app_nil_r. Qed.

Create HintDb script discriminated.
#[global] Hint Resolve emit_same_session emit_conversation emit_log modify_log
  : script.
#[global] Hint Extern 1 (unfiltered _) => exact I : script.
#[global] Hint Extern 1 (unfiltered (EvSearch _ _ _ ∅ _)) => reflexivity : script.

(** Decompose a computation along its binds; leaves that depend on the
    relation are looked up in the [script] hints. *)
Ltac script_step :=
  first
    [ solve [auto with script]
    | apply steps_bind; [typeclasses eauto| |intros ?]
    | apply steps_ret; typeclasses eauto
    | apply steps_skip; typeclasses eauto
    | apply steps_raise; typeclasses eauto
    | apply steps_lift; typeclasses eauto
    | apply steps_gets; typeclasses eauto
    | apply steps_attr; typeclasses eauto
    | apply steps_for_each; [typeclasses eauto|intros ?]
    | match goal with
      | |- steps _ (match ?x with _ => _ end) => destruct x
      end
    | progress unfold find_search_column, render_block, describe_service,
        complete, summarize_chat, get_chat_history ].

Ltac script := repeat script_step.

Lemma ro_build_prompt (B : Backend) (question : string) :
  steps same_session (build_prompt B question).
Proof. unfold build_prompt, query_cortex. script. Qed.

Lemma ro_complete (B : Backend) (model : option string) (prompt : string) :
  steps same_session (complete B model prompt).
Proof. script. Qed.

Lemma ro_generate_summary (B : Backend) : steps same_session (generate_summary B).
Proof. unfold generate_summary. script. Qed.

(** ** The two halves of [main] *)

Lemma main_split (B : Backend) (ui : Widgets) (w : World) :
  main B ui w = (setup B ui ≫= λ _, interact B ui) w.
Proof.
  unfold main, setup, interact, chat_section, summary_section, mbind, M_bind.
  destruct (handle_uploaded_pdf (w_upload ui) w) as [[[]|e] w1]; [|done].
  destruct (init_service_metadata B w1) as [[[]|e] w2]; [|done].
  destruct (init_config ui w2) as [[[]|e] w3]; [|done].
  destruct (init_messages w3) as [[[]|e] w4]; [|done].
  by destruct (attr service_metadata w4) as [[md|e] w5].
Qed.

Lemma handle_uploaded_pdf_run (uploaded : option string) (w : World) :
  handle_uploaded_pdf uploaded w
  = (Ok tt,
     {| session := match uploaded with
                   | Some file_name => set_uploaded_pdf file_name (session w)
                   | None => session w
                   end;
        trace := trace w |}).
Proof. destruct w, uploaded; reflexivity. Qed.

(** Discovery happens once: with the metadata in place nothing is done. *)
Lemma init_service_metadata_known (B : Backend) (w : World)
  (md : list ServiceDescriptor) :
  service_metadata (session w) = Some md →
  init_service_metadata B w = (Ok tt, w).
Proof. intros Hmd. unfold init_service_metadata. run_script. by rewrite Hmd. Qed.

(** Discovery either fails and leaves the session as it was, or stores the
    metadata and nothing else. *)
Lemma init_service_metadata_session (B : Backend) (w : World) :
  match fst (init_service_metadata B w) with
  | Ok _ =>
      ∃ md, service_metadata (session (snd (init_service_metadata B w))) = Some md
            ∧ (session (snd (init_service_metadata B w)) = session w
               ∨ session (snd (init_service_metadata B w))
                 = set_service_metadata md (session w))
  | Raise _ => session (snd (init_service_metadata B w)) = session w
  end.
Proof.
  unfold init_service_metadata. run_script.
  destruct (service_metadata (session w)) as [md|] eqn:Hmd; cbn [fst snd].
  { exists md. by split; [|left]. }
  destruct (show_cortex_search_services B) as [services|e]; cbn [fst snd]; [|done].
  pose proof (steps_for_each same_session (describe_service B) services) as Hro.
  specialize (Hro ltac:(intros x; script)
                {| session := session w; trace := trace w ++ [EvShowServices] |}).
  unfold same_session in Hro. cbn [session] in Hro.
  destruct (for_each _ services _) as [[metadata|e] w']; cbn [fst snd] in *.
  - exists metadata. split; [done|]. right. by rewrite Hro.
  - done.
Qed.

(** With no service on offer, discovery stores the empty list. *)
Lemma init_service_metadata_none (B : Backend) (w : World) :
  service_metadata (session w) = None →
  show_cortex_search_services B = Ok [] →
  init_service_metadata B w
  = (Ok tt, {| session := set_service_metadata [] (session w);
               trace := trace w ++ [EvShowServices] |}).
Proof.
  intros Hmd Hshow. unfold init_service_metadata. run_script.
  by rewrite Hmd, Hshow.
Qed.

(** [setup] when the services are known already. *)
Lemma setup_known (B : Backend) (ui : Widgets) (w : World)
  (md : list ServiceDescriptor) :
  service_metadata (session w) = Some md →
  setup B ui w
  = init_messages
      {| session := store_widgets ui md
           (match w_upload ui with
            | Some file_name => set_uploaded_pdf file_name (session w)
            | None => session w
            end);
         trace := trace w |}.
Proof.
  intros Hmd. unfold setup, mbind, M_bind.
  rewrite handle_uploaded_pdf_run.
  rewrite (init_service_metadata_known B _ md)
    by (cbn [session]; by destruct (w_upload ui)).
  unfold init_config. run_script.
  assert (Hmd' : service_metadata
            (match w_upload ui with
             | Some file_name => set_uploaded_pdf file_name (session w)
             | None => session w
             end) = Some md) by (by destruct (w_upload ui)).
  by rewrite Hmd'.
Qed.

(** The Conversation after [setup]: emptied when the clear button was
    pressed and [setup] ran to its end, untouched otherwise. *)
Lemma setup_messages (B : Backend) (ui : Widgets) (w : World) :
  match fst (setup B ui w) with
  | Ok _ =>
      messages (session (snd (setup B ui w)))
      = Some (if w_clear ui then [] else conversation w)
      ∧ is_Some (service_metadata (session (snd (setup B ui w))))
  | Raise _ => messages (session (snd (setup B ui w))) = messages (session w)
  end.
Proof.
  unfold setup, mbind, M_bind. rewrite handle_uploaded_pdf_run.
  set (w1 := {| session := _; trace := trace w |}).
  assert (H1 : messages (session w1) = messages (session w))
    by (subst w1; cbn [session]; by destruct (w_upload ui)).
  pose proof (init_service_metadata_session B w1) as H2.
  destruct (init_service_metadata B w1) as [[[]|e] w2]; cbn [fst snd] in *;
    [|by rewrite H2].
  destruct H2 as (md & Hmd & Hs).
  assert (H2 : messages (session w2) = messages (session w))
    by (by destruct Hs as [-> | ->]).
  unfold init_config. run_script. rewrite Hmd.
  rewrite init_messages_run.
  cbn [fst snd session store_widgets clear_conversation messages
       pinned_messages].
  unfold conversation. rewrite <- H2.
  destruct (w_clear ui), (pinned_messages (session w2)),
    (messages (session w2)) eqn:Hm; cbn; rewrite ?Hm, ?Hmd; eauto.
Qed.

(** ** Appending turns *)

Lemma append_message_run (t : Turn) (w : World) (msgs : list Turn) :
  messages (session w) = Some msgs →
  append_message t w
  = (Ok tt, {| session := set_messages (msgs ++ [t]) (session w);
               trace := trace w |}).
Proof. intros Hm. unfold append_message. run_script. by rewrite Hm. Qed.

Lemma append_message_conversation (t : Turn) :
  steps conversation_grows (append_message t).
Proof.
  intros w. unfold conversation_grows, conversation, append_message.
  run_script. destruct (messages (session w)) as [msgs|] eqn:Hm;
    cbn [snd session set_messages messages default]; rewrite ?Hm; cbn.
  - by apply prefix_app_r.
  - done.
Qed.

Lemma append_message_log (P : Event → Prop) (t : Turn) :
  steps (log_grows P) (append_message t).
Proof. unfold append_message. script. Qed.

#[global] Hint Resolve append_message_conversation append_message_log : script.

Lemma interact_conversation (B : Backend) (ui : Widgets) :
  steps conversation_grows (interact B ui).
Proof.
  unfold interact, chat_section, summary_section, generate_summary. script.
Qed.

(** One run of the script without the clear button only appends. *)
Lemma main_conversation (B : Backend) (ui : Widgets) (w : World) :
  w_clear ui = false →
  conversation w `prefix_of` conversation (snd (main B ui w)).
Proof.
  intros Hc. rewrite main_split. unfold mbind, M_bind.
  pose proof (setup_messages B ui w) as Hs.
  destruct (setup B ui w) as [[[]|e] w4]; cbn [fst snd] in *.
  - destruct Hs as [Hs _]. rewrite Hc in Hs.
    trans (conversation w4); [|apply interact_conversation].
    unfold conversation at 2. by rewrite Hs.
  - unfold conversation. by rewrite Hs.
Qed.

Lemma run_all_app (s1 s2 : list (Backend * Widgets)) (w : World) :
  run_all (s1 ++ s2) w = run_all s2 (run_all s1 w).
Proof.
  revert w. induction s1 as [|[B ui] s1 IH]; intros w; [done|].
  cbn [app run_all]. apply IH.
Qed.

Lemma run_all_conversation (steps : list (Backend * Widgets)) (w : World) :
  Forall (λ st, w_clear (snd st) = false) steps →
  conversation w `prefix_of` conversation (run_all steps w).
Proof.
  intros Hall. revert w.
  induction Hall as [|[B ui] steps Hc _ IH]; intros w; [done|].
  cbn [run_all]. etrans; [apply (main_conversation B ui w Hc)|apply IH].
Qed.

(** C7.  Along any sequence of runs of the script in which the clear button
    is never pressed, the Conversation only grows at its end: what it holds
    after the first [s1] runs is a prefix of what it holds after the further
    runs [s2], so its length never decreases and each turn keeps its
    position, role and content. *)
Theorem conversation_is_append_only
  (s1 s2 : list (Backend * Widgets)) (w : World) :
  Forall (λ st, w_clear (snd st) = false) (s1 ++ s2) →
  conversation (run_all s1 w) `prefix_of` conversation (run_all (s1 ++ s2) w)
  ∧ (length (conversation (run_all s1 w))
     ≤ length (conversation (run_all (s1 ++ s2) w)))%nat
  ∧ ∀ i t, conversation (run_all s1 w) !! i = Some t →
           conversation (run_all (s1 ++ s2) w) !! i = Some t.
Proof.
  intros Hall. apply Forall_app in Hall as [_ H2].
  rewrite run_all_app.
  pose proof (run_all_conversation s2 (run_all s1 w) H2) as Hp.
  split; [done|]. split; [by apply prefix_length|].
  intros i t Hi. by eapply prefix_lookup_Some.
Qed.

Lemma conversation_is_append_only_witness :
  Forall (λ st : Backend * Widgets, w_clear (snd st) = false)
    ([(demo_backend, demo_widgets (Some "What is OWASP?"))]
     ++ [(demo_backend, demo_widgets (Some "And SQL injection?"))])
  ∧ conversation
      (run_all [(demo_backend, demo_widgets (Some "What is OWASP?"))] fresh_world)
    `prefix_of`
    conversation
      (run_all ([(demo_backend, demo_widgets (Some "What is OWASP?"))]
                ++ [(demo_backend, demo_widgets (Some "And SQL injection?"))])
         fresh_world).
Proof.
  assert (Hall : Forall (λ st : Backend * Widgets, w_clear (snd st) = false)
            ([(demo_backend, demo_widgets (Some "What is OWASP?"))]
             ++ [(demo_backend, demo_widgets (Some "And SQL injection?"))])).
  { repeat constructor. }
  split; [exact Hall|].
  exact (proj1 (conversation_is_append_only
                  [(demo_backend, demo_widgets (Some "What is OWASP?"))]
                  [(demo_backend, demo_widgets (Some "And SQL injection?"))]
                  fresh_world Hall)).
Defined.

(** ** No search service, no chat *)

Lemma interact_disabled (B : Backend) (ui : Widgets) (w : World) :
  service_metadata (session w) = Some [] →
  session (snd (interact B ui w)) = session w.
Proof.
  intros Hmd. unfold interact, chat_section, summary_section. run_script.
  rewrite Hmd. cbn [truthy_list negb chat_input fst snd].
  destruct (messages (session w)) as [msgs|]; cbn [fst snd]; [|done].
  destruct (truthy_list msgs && w_summary ui)%bool; [|done].
  pose proof (ro_generate_summary B w) as Hro. unfold same_session in Hro.
  by destruct (generate_summary B w) as [[x|e] w'].
Qed.

Lemma setup_disabled (B : Backend) (ui : Widgets) (w : World) :
  service_metadata (session w) = Some []
  ∨ (service_metadata (session w) = None
     ∧ show_cortex_search_services B = Ok []) →
  fst (setup B ui w) = Ok tt
  ∧ service_metadata (session (snd (setup B ui w))) = Some []
  ∧ messages (session (snd (setup B ui w)))
    = Some (if w_clear ui then [] else conversation w).
Proof.
  intros Hmd.
  assert (Hrun : fst (setup B ui w) = Ok tt
                 ∧ service_metadata (session (snd (setup B ui w))) = Some []).
  { unfold setup, mbind, M_bind. rewrite handle_uploaded_pdf_run.
    set (w1 := {| session := _; trace := trace w |}).
    assert (H1 : service_metadata (session w1) = service_metadata (session w))
      by (subst w1; cbn [session]; by destruct (w_upload ui)).
    destruct Hmd as [Hmd|[Hmd Hshow]].
    - rewrite (init_service_metadata_known B w1 []) by congruence.
      unfold init_config. run_script. rewrite H1, Hmd.
      rewrite init_messages_run. cbn [fst snd session].
      split; [done|].
      destruct (_ || _)%bool, (pinned_messages _); exact (eq_trans H1 Hmd).
    - rewrite (init_service_metadata_none B w1) by congruence.
      unfold init_config. run_script. cbn [service_metadata set_service_metadata].
      rewrite init_messages_run. cbn [fst snd session].
      split; [done|].
      by destruct (_ || _)%bool, (pinned_messages _). }
  destruct Hrun as [Hok Hmd']. split; [done|]. split; [done|].
  pose proof (setup_messages B ui w) as Hs. rewrite Hok in Hs. apply Hs.
Qed.

(** One run of the script while no search service is known. *)
Lemma main_disabled (B : Backend) (ui : Widgets) (w : World) :
  service_metadata (session w) = Some []
  ∨ (service_metadata (session w) = None
     ∧ show_cortex_search_services B = Ok []) →
  service_metadata (session (snd (main B ui w))) = Some []
  ∧ conversation (snd (main B ui w))
    = (if w_clear ui then [] else conversation w).
Proof.
  intros Hmd. destruct (setup_disabled B ui w Hmd) as (Hok & Hmd' & Hm).
  rewrite main_split. unfold mbind, M_bind.
  destruct (setup B ui w) as [[[]|e] w4]; cbn [fst snd] in *; [|done].
  unfold conversation at 1. rewrite (interact_disabled B ui w4 Hmd').
  by rewrite Hmd', Hm.
Qed.

(** C8.  Once the discovered list of search services is empty (or, in a
    session that has not discovered yet, as long as the backend lists no
    service), the chat input is disabled in every run: whatever is typed,
    and whatever else the user does, no turn is ever appended.  The list
    stays empty, and the Conversation after any sequence of runs is the
    one before it, or the empty one if the clear button was pressed. *)
Theorem no_service_no_turn (steps : list (Backend * Widgets)) (w : World) :
  service_metadata (session w) = Some []
  ∨ (service_metadata (session w) = None
     ∧ Forall (λ st, show_cortex_search_services (fst st) = Ok []) steps) →
  default [] (service_metadata (session (run_all steps w))) = []
  ∧ conversation (run_all steps w)
    = (if existsb (λ st, w_clear (snd st)) steps then [] else conversation w)
  ∧ (length (conversation (run_all steps w)) ≤ length (conversation w))%nat
  ∧ ∀ typed, chat_input
      (negb (truthy_list (default [] (service_metadata (session (run_all steps w))))))
      typed = None.
Proof.
  intros Hmd.
  assert (Hmain :
    default [] (service_metadata (session (run_all steps w))) = []
    ∧ conversation (run_all steps w)
      = (if existsb (λ st, w_clear (snd st)) steps then [] else conversation w)).
  { revert w Hmd. induction steps as [|[B ui] steps IH]; intros w Hmd.
    - cbn [run_all existsb]. split; [|done].
      by destruct Hmd as [-> | [-> _]].
    - cbn [run_all existsb snd].
      assert (Hone : service_metadata (session w) = Some []
                     ∨ (service_metadata (session w) = None
                        ∧ show_cortex_search_services B = Ok [])).
      { destruct Hmd as [Hmd|[Hmd Hall]]; [by left|right].
        split; [done|]. by inversion Hall. }
      destruct (main_disabled B ui w Hone) as [Hmd' Hconv].
      destruct (IH (snd (main B ui w)) (or_introl Hmd')) as [IH1 IH2].
      split; [exact IH1|]. rewrite IH2, Hconv.
      by destruct (w_clear ui), (existsb _ steps). }
  destruct Hmain as [H1 H2]. split; [exact H1|]. split; [exact H2|]. split.
  - rewrite H2. destruct (existsb _ steps); cbn [length]; lia.
  - intros typed. by rewrite H1.
Qed.

Lemma no_service_no_turn_witness :
  (service_metadata (session fresh_world) = Some []
   ∨ (service_metadata (session fresh_world) = None
      ∧ Forall (λ st : Backend * Widgets,
                  show_cortex_search_services (fst st) = Ok [])
          [(bare_backend, demo_widgets (Some "What is OWASP?"));
           (bare_backend, demo_widgets (Some "Anyone there?"))]))
  ∧ conversation
      (run_all [(bare_backend, demo_widgets (Some "What is OWASP?"));
                (bare_backend, demo_widgets (Some "Anyone there?"))]
         fresh_world) = [].
Proof.
  assert (Hpre :
    service_metadata (session fresh_world) = Some []
    ∨ (service_metadata (session fresh_world) = None
       ∧ Forall (λ st : Backend * Widgets,
                   show_cortex_search_services (fst st) = Ok [])
           [(bare_backend, demo_widgets (Some "What is OWASP?"));
            (bare_backend, demo_widgets (Some "Anyone there?"))])).
  { right. split; [reflexivity|]. repeat constructor. }
  split; [exact Hpre|].
  exact (proj1 (proj2 (no_service_no_turn _ fresh_world Hpre))).
Defined.

(** ** The debug flag *)

Lemma for_each_render_block_pure (col : string)
  (irs : list (nat * SearchRecord)) :
  ∃ r, ∀ w, for_each (render_block col) irs w = (r, w).
Proof.
  induction irs as [|[i rec] irs [r IH]].
  - by exists (Ok []).
  - assert (Hhead : ∀ w, render_block col (i, rec) w
              = (match rec !! col with
                 | Some t => Ok (context_block i t)
                 | None => Raise KeyError
                 end, w)).
    { intros w. unfold render_block. cbn [fst snd]. by destruct (rec !! col). }
    exists (match rec !! col with
            | Some t => match r with
                        | Ok blocks => Ok (context_block i t :: blocks)
                        | Raise e => Raise e
                        end
            | None => Raise KeyError
            end).
    intros w. cbn [for_each]. unfold mbind, M_bind. rewrite Hhead.
    destruct (rec !! col) as [t|]; [|done]. rewrite IH. by destruct r.
Qed.

(** C10.  The debug toggle does not change what [query_cortex] returns: run
    from the same world with the flag on and with the flag off, it gives the
    same result (the same context string, or the same exception) and leaves
    the session store alone; the only difference is that with the flag on
    the context is also shown in the sidebar. *)
Theorem debug_flag_only_displays (B : Backend) (query : string)
  (columns : list string) (filter : SearchFilter) (w : World) :
  let on := query_cortex B query columns filter (in_session (set_debug true) w) in
  let off := query_cortex B query columns filter (in_session (set_debug false) w) in
  fst on = fst off
  ∧ session (snd on) = set_debug true (session w)
  ∧ session (snd off) = set_debug false (session w)
  ∧ trace (snd on)
    = trace (snd off)
      ++ match fst off with
         | Ok context => [EvContextDocuments context]
         | Raise _ => []
         end.
Proof.
  unfold query_cortex, in_session. run_script.
  cbn [set_debug selected_cortex_search_service num_retrieved_chunks
       service_metadata debug].
  destruct (cortex_search B _ query columns filter _) as [results|e];
    cbn [fst snd session trace]; [|by rewrite app_nil_r].
  cbn [set_debug service_metadata].
  destruct (service_metadata (session w)) as [md|];
    cbn [fst snd session trace]; [|by rewrite app_nil_r].
  unfold find_search_column.
  destruct (List.find _ md) as [s|]; run_script; [|by rewrite app_nil_r].
  destruct (for_each_render_block_pure (str_lower B (search_column s))
              (enumerate results)) as [r Hr].
  rewrite !Hr. destruct r as [blocks|e]; cbn [fst snd session trace debug set_debug];
    [done|by rewrite app_nil_r].
Qed.

(** ** The topic select box *)

Lemma ind_ret {A} (a : A) : indistinguishable (mret a) (mret a).
Proof. by intros w1 w2 H. Qed.

Lemma ind_skip : indistinguishable skip skip.
Proof. by intros w1 w2 H. Qed.

Lemma ind_raise {A} (e : Error) : indistinguishable (@raise A e) (raise e).
Proof. by intros w1 w2 H. Qed.

Lemma ind_lift {A} (r : Result A) : indistinguishable (lift r) (lift r).
Proof. by intros w1 w2 H. Qed.

Lemma ind_emit (ev : Event) : indistinguishable (emit ev) (emit ev).
Proof.
  intros w1 w2 [Ht Hs]. split; [done|]. split; cbn; [by rewrite Ht|done].
Qed.

Lemma ind_gets {A} (f : SessionState → A) :
  (∀ s, f (set_selected_topic None s) = f s) →
  indistinguishable (gets f) (gets f).
Proof.
  intros Hf w1 w2 [Ht Hs]. split; [|done]. unfold gets. cbn [fst].
  by rewrite <- (Hf (session w1)), Hs, Hf.
Qed.

Lemma ind_attr {A} (f : SessionState → option A) :
  (∀ s, f (set_selected_topic None s) = f s) →
  indistinguishable (attr f) (attr f).
Proof.
  intros Hf w1 w2 [Ht Hs]. unfold attr.
  assert (Heq : f (session w1) = f (session w2))
    by (by rewrite <- (Hf (session w1)), Hs, Hf).
  rewrite Heq. by destruct (f (session w2)).
Qed.

Lemma ind_modify (h1 h2 g : SessionState → SessionState) :
  (∀ s, set_selected_topic None (h1 s) = g (set_selected_topic None s)) →
  (∀ s, set_selected_topic None (h2 s) = g (set_selected_topic None s)) →
  indistinguishable (modify h1) (modify h2).
Proof.
  intros H1 H2 w1 w2 [Ht Hs]. split; [done|]. split; [done|].
  cbn. by rewrite H1, H2, Hs.
Qed.

Lemma ind_bind {A C} (m1 m2 : M A) (k1 k2 : A → M C) :
  indistinguishable m1 m2 →
  (∀ a, indistinguishable (k1 a) (k2 a)) →
  indistinguishable (m1 ≫= k1) (m2 ≫= k2).
Proof.
  intros Hm Hk w1 w2 Hw. unfold mbind, M_bind.
  destruct (Hm w1 w2 Hw) as [Hr Hw'].
  destruct (m1 w1) as [r1 w1'], (m2 w2) as [r2 w2']. cbn [fst snd] in *.
  subst r2. destruct r1 as [a|e]; [by apply Hk|done].
Qed.

Lemma ind_for_each {A C} (f : A → M C) (xs : list A) :
  (∀ x, indistinguishable (f x) (f x)) →
  indistinguishable (for_each f xs) (for_each f xs).
Proof.
  intros Hf. induction xs as [|x xs IH]; cbn [for_each]; [apply ind_ret|].
  apply ind_bind; [apply Hf|]. intros y.
  apply ind_bind; [apply IH|]. intros ys. apply ind_ret.
Qed.

Ltac ind_step :=
  first
    [ apply ind_bind; [|intros ?]
    | apply ind_ret | apply ind_skip | apply ind_raise | apply ind_lift
    | apply ind_emit
    | apply ind_gets; reflexivity
    | apply ind_attr; reflexivity
    | match goal with
      | |- indistinguishable (modify ?h) (modify ?h) =>
          apply (ind_modify h h h); intros ?; reflexivity
      | |- indistinguishable (modify (store_widgets (with_topic _ ?ui) ?md)) _ =>
          apply (ind_modify _ _
                   (λ s, set_selected_topic None (store_widgets ui md s)));
          intros ?; reflexivity
      end
    | apply ind_for_each; intros ?
    | match goal with
      | |- indistinguishable (match ?x with _ => _ end) _ => destruct x
      end
    | progress unfold find_search_column, render_block, describe_service,
        complete, summarize_chat, get_chat_history, append_message ].

Ltac ind_script := repeat ind_step.

Lemma ind_query_cortex (B : Backend) (query : string) (columns : list string)
  (filter : SearchFilter) :
  indistinguishable (query_cortex B query columns filter)
    (query_cortex B query columns filter).
Proof. unfold query_cortex. ind_script. Qed.

Lemma ind_build_prompt (B : Backend) (question : string) :
  indistinguishable (build_prompt B question) (build_prompt B question).
Proof. unfold build_prompt, query_cortex. ind_script. Qed.

Lemma ind_main (B : Backend) (ui : Widgets) (t1 t2 : string) :
  indistinguishable (main B (with_topic t1 ui)) (main B (with_topic t2 ui)).
Proof.
  unfold main, handle_uploaded_pdf, init_service_metadata, init_config,
    init_messages, answer, generate_summary, build_prompt, query_cortex.
  cbn [with_topic w_upload w_chat w_summary].
  ind_script.
Qed.

Lemma log_main (B : Backend) (ui : Widgets) :
  steps (log_grows unfiltered) (main B ui).
Proof.
  unfold main, handle_uploaded_pdf, init_service_metadata, init_config,
    init_messages, answer, generate_summary, build_prompt, query_cortex.
  script.
Qed.

Lemma agree_topics (ta tb : option string) (w : World) :
  agree (in_session (set_selected_topic ta) w)
    (in_session (set_selected_topic tb) w).
Proof. by split. Qed.

Lemma agree_conversation (w1 w2 : World) :
  agree w1 w2 → conversation w1 = conversation w2.
Proof.
  intros [_ Hs]. unfold conversation.
  apply (f_equal messages) in Hs. cbn [set_selected_topic messages] in Hs.
  by rewrite Hs.
Qed.

(** C9.  The topic select box is decorative.  Take two runs of the script
    that differ only in the topic: the topic chosen in this run ([t1] or
    [t2]) and the topic left in the session store by earlier runs ([ta] or
    [tb]).  They return the same result and leave the same log of calls to
    the search and completion services (hence the same queries, contexts
    and prompts), the same Conversation and the same session store apart
    from the topic key; every search call logged carries the empty filter.
    [query_cortex] and [build_prompt] on their own return the same
    result as well. *)
Theorem topic_filter_is_decorative (B : Backend) (ui : Widgets)
  (t1 t2 : string) (ta tb : option string) (question : string) (w : World) :
  let w1 := in_session (set_selected_topic ta) w in
  let w2 := in_session (set_selected_topic tb) w in
  let r1 := main B (with_topic t1 ui) w1 in
  let r2 := main B (with_topic t2 ui) w2 in
  fst r1 = fst r2
  ∧ trace (snd r1) = trace (snd r2)
  ∧ conversation (snd r1) = conversation (snd r2)
  ∧ set_selected_topic None (session (snd r1))
    = set_selected_topic None (session (snd r2))
  ∧ (∃ evs, trace (snd r1) = trace w ++ evs ∧ Forall unfiltered evs)
  ∧ fst (query_cortex B question [] ∅ w1) = fst (query_cortex B question [] ∅ w2)
  ∧ fst (build_prompt B question w1) = fst (build_prompt B question w2).
Proof.
  intros w1 w2 r1 r2.
  pose proof (agree_topics ta tb w) as Hw. fold w1 w2 in Hw.
  destruct (ind_main B ui t1 t2 w1 w2 Hw) as [Hr Hagree].
  fold r1 r2 in Hr, Hagree.
  split; [exact Hr|]. split; [apply Hagree|].
  split; [by apply agree_conversation|]. split; [apply Hagree|]. split.
  - exact (log_main B (with_topic t1 ui) w1).
  - split.
    + apply (ind_query_cortex B question [] ∅ w1 w2 Hw).
    + apply (ind_build_prompt B question w1 w2 Hw).
Qed.

(** ** Building the prompt *)

Lemma complete_run (B : Backend) (model : option string) (prompt : string)
  (w : World) :
  complete B model prompt w
  = (match Complete B model prompt with
     | Ok text => Ok (replace "$" "\$" text)
     | Raise e => Raise e
     end,
     {| session := session w; trace := trace w ++ [EvComplete model prompt] |}).
Proof. unfold complete. run_script. by destruct (Complete B model prompt). Qed.

(** What a successful [build_prompt] has done. *)
Lemma build_prompt_inv (B : Backend) (question : string) (w w' : World)
  (prompt : string) :
  build_prompt B question w = (Ok prompt, w') →
  ∃ chat_history summary w1 context,
    (if use_chat_history (session w)
     then ∃ msgs, messages (session w) = Some msgs
                  ∧ chat_history = slice msgs (- num_chat_messages (session w)) (-1)
     else chat_history = [])
    ∧ (if truthy_list chat_history
       then summarize_chat B (chat_text_of chat_history) question w
            = (Ok summary, w1)
       else summary = question ∧ w1 = w)
    ∧ query_cortex B summary [] ∅ w1 = (Ok context, w')
    ∧ prompt = prompt_template (chat_text_of chat_history) context question.
Proof.
  unfold build_prompt, get_chat_history. run_script. intros Hrun.
  destruct (use_chat_history (session w)) eqn:Huse.
  - destruct (messages (session w)) as [msgs|] eqn:Hm; cbn [fst snd] in Hrun;
      [|done].
    cbn [session] in Hrun.
    destruct (truthy_list (slice msgs _ _)) eqn:Htr.
    + destruct (summarize_chat B _ question w) as [[summary|e] w1] eqn:Hsum;
        [|done].
      destruct (query_cortex B summary [] ∅ w1) as [[context|e] w2] eqn:Hq;
        [|done].
      inversion Hrun; subst.
      exists (slice msgs (- num_chat_messages (session w)) (-1)), summary, w1,
        context.
      rewrite Htr. split; [by exists msgs|]. by split.
    + cbn [fst snd] in Hrun.
      destruct (query_cortex B question [] ∅ w) as [[context|e] w2] eqn:Hq;
        [|done].
      inversion Hrun; subst.
      exists (slice msgs (- num_chat_messages (session w)) (-1)), question, w,
        context.
      rewrite Htr. split; [by exists msgs|]. by split.
  - cbn [fst snd truthy_list] in Hrun.
    destruct (query_cortex B question [] ∅ w) as [[context|e] w2] eqn:Hq;
      [|done].
    inversion Hrun; subst. by exists [], question, w, context.
Qed.

(** C2, as the code has it.  When [build_prompt] returns a prompt, the
    prompt is the fixed template filled with: in the chat-history section,
    the contents of the user-role turns of the history window only, joined
    by newlines (assistant turns are left out); the context returned by
    [query_cortex]; and the question as it was passed in. *)
Theorem build_prompt_history_has_user_turns_only (B : Backend)
  (question : string) (w w' : World) (prompt : string) :
  build_prompt B question w = (Ok prompt, w') →
  ∃ chat_history summary w1 context,
    (if use_chat_history (session w)
     then ∃ msgs, messages (session w) = Some msgs
                  ∧ chat_history = slice msgs (- num_chat_messages (session w)) (-1)
     else chat_history = [])
    ∧ query_cortex B summary [] ∅ w1 = (Ok context, w')
    ∧ prompt
      = prompt_template
          (join nl (map content (List.filter is_user chat_history)))
          context question.
Proof.
  intros Hrun.
  destruct (build_prompt_inv B question w w' prompt Hrun)
    as (hist & summary & w1 & context & Hh & _ & Hq & Hp).
  by exists hist, summary, w1, context.
Qed.

Lemma build_prompt_history_has_user_turns_only_witness :
  ∃ context,
    fst (build_prompt demo_backend "and OWASP?" (demo_world demo_exchange))
    = Ok (prompt_template "hello" context "and OWASP?").
Proof.
  pose (run := build_prompt demo_backend "and OWASP?" (demo_world demo_exchange)).
  pose (prompt := match fst run with Ok p => p | Raise _ => "" end).
  assert (Hrun : build_prompt demo_backend "and OWASP?" (demo_world demo_exchange)
                 = (Ok prompt, snd run)) by (vm_compute; reflexivity).
  destruct (build_prompt_history_has_user_turns_only demo_backend "and OWASP?"
              (demo_world demo_exchange) (snd run) prompt Hrun)
    as (hist & summary & w1 & context & Hh & _ & Hp).
  exists context. rewrite Hrun. cbn [fst]. rewrite Hp. f_equal. f_equal.
  cbn [use_chat_history session demo_world demo_session set_messages
       set_pinned_messages store_widgets demo_widgets w_use_chat_history] in Hh.
  destruct Hh as (msgs & Hm & ->). injection Hm as <-.
  vm_compute. reflexivity.
Defined.

(** C2 as stated fails: the window holds a user turn and an assistant turn,
    and the text of the assistant turn occurs nowhere in the prompt; the
    chat-history section holds the user turn alone. *)
Lemma build_prompt_omits_assistant_turns :
  ∃ prompt,
    fst (build_prompt demo_backend "and OWASP?" (demo_world demo_exchange))
    = Ok prompt
    ∧ fst (get_chat_history (demo_world demo_exchange))
      = Ok [ {| role := user; content := "hello" |};
             {| role := assistant; content := "hi there" |} ]
    ∧ occurs_in "hi there" prompt = false
    ∧ occurs_in "<chat_history>hello</chat_history>" prompt = true.
Proof. eexists. vm_compute. repeat split; reflexivity. Qed.

(** ** Answering a question *)

Lemma strip_quotes_clean (question : string) :
  count_char "'" (replace "'" "" question) = 0%nat.
Proof.
  rewrite (replace_single_char "'"). apply substitute_char_delete.
Qed.

(** [answer] step by step: the question is stored as typed, the prompt is
    built from the question without its single quotes, and the reply is
    stored after it. *)
Lemma answer_run (B : Backend) (question : string) (w : World)
  (msgs : list Turn) :
  messages (session w) = Some msgs →
  answer B question w
  = match build_prompt B (replace "'" "" question)
            (in_session
               (set_messages (msgs ++ [ {| role := user; content := question |} ]))
               w) with
    | (Ok prompt, w2) =>
        match complete B (model_name (session w2)) prompt w2 with
        | (Ok reply, w3) =>
            (Ok tt,
             in_session
               (set_messages
                  (msgs ++ [ {| role := user; content := question |};
                             {| role := assistant; content := reply |} ]))
               w3)
        | (Raise e, w3) => (Raise e, w3)
        end
    | (Raise e, w2) => (Raise e, w2)
    end.
Proof.
  intros Hm. unfold answer, mbind, M_bind.
  rewrite (append_message_run _ w msgs Hm). fold (in_session
    (set_messages (msgs ++ [ {| role := user; content := question |} ])) w).
  set (w1 := in_session _ w).
  pose proof (ro_build_prompt B (replace "'" "" question) w1) as H2.
  destruct (build_prompt B _ w1) as [[prompt|e] w2]; [|done].
  unfold gets at 1. cbn [fst snd] in *.
  pose proof (ro_complete B (model_name (session w2)) prompt w2) as H3.
  destruct (complete B _ prompt w2) as [[reply|e] w3]; [|done].
  cbn [fst snd] in *. unfold same_session in *.
  rewrite (append_message_run _ w3
             (msgs ++ [ {| role := user; content := question |} ]))
    by (by rewrite H3, H2).
  unfold in_session. by rewrite <- app_assoc.
Qed.

(** With a service discovered and a non-empty question typed, the chat
    section of the page is [answer]. *)
Lemma chat_section_submitted (B : Backend) (ui : Widgets) (w : World)
  (md : list ServiceDescriptor) (question : string) :
  service_metadata (session w) = Some md →
  truthy_list md = true →
  w_chat ui = Some question →
  truthy_str question = true →
  chat_section B ui w = answer B question w.
Proof.
  intros Hmd Htr Hq Hne. unfold chat_section. run_script.
  rewrite Hmd. cbn [fst snd]. rewrite Htr. cbn [negb chat_input].
  by rewrite Hq, Hne.
Qed.

Lemma ro_summary_section (B : Backend) (ui : Widgets) :
  steps same_session (summary_section B ui).
Proof. unfold summary_section, generate_summary. script. Qed.

Lemma log_summary_section (B : Backend) (ui : Widgets) :
  steps (log_grows (λ _, True)) (summary_section B ui).
Proof.
  unfold summary_section, generate_summary. script;
    by apply emit_log.
Qed.

(** [setup] in a session that knows its services: it cannot fail, keeps the
    metadata and the log, and leaves the Conversation as it was, or empty
    after the clear button. *)
Lemma setup_known_facts (B : Backend) (ui : Widgets) (w : World)
  (md : list ServiceDescriptor) :
  service_metadata (session w) = Some md →
  fst (setup B ui w) = Ok tt
  ∧ service_metadata (session (snd (setup B ui w))) = Some md
  ∧ messages (session (snd (setup B ui w)))
    = Some (if w_clear ui then [] else conversation w)
  ∧ trace (snd (setup B ui w)) = trace w.
Proof.
  intros Hmd.
  assert (Hrun : fst (setup B ui w) = Ok tt
                 ∧ service_metadata (session (snd (setup B ui w))) = Some md
                 ∧ trace (snd (setup B ui w)) = trace w).
  { rewrite (setup_known B ui w md Hmd), init_messages_run.
    cbn [fst snd session trace]. split; [done|]. split; [|done].
    destruct (_ || _)%bool, (pinned_messages _); cbn;
      by destruct (w_upload ui). }
  destruct Hrun as (Hok & Hmd' & Htr). split; [done|]. split; [done|].
  split; [|done].
  pose proof (setup_messages B ui w) as Hs. rewrite Hok in Hs. apply Hs.
Qed.

(** C1, as the code has it.  In a session with a search service, when a
    non-empty question is submitted, the user turn appended to the
    Conversation holds the question exactly as typed, single quotes
    included; it is followed by the assistant turn, or by nothing when the
    run fails after the question was stored.  The single quotes are removed
    only from the copy of the question handed to [build_prompt]: that copy
    has no single quote, and it is the question of the prompt sent to the
    completion service when the run succeeds. *)
Theorem question_is_stored_raw_and_prompted_unquoted (B : Backend)
  (ui : Widgets) (w : World) (md : list ServiceDescriptor) (question : string) :
  service_metadata (session w) = Some md →
  truthy_list md = true →
  w_chat ui = Some question →
  truthy_str question = true →
  ∃ tail,
    conversation (snd (main B ui w))
    = (if w_clear ui then [] else conversation w)
      ++ {| role := user; content := question |} :: tail
    ∧ (tail = [] ∨ ∃ reply, tail = [ {| role := assistant; content := reply |} ])
    ∧ count_char "'" (replace "'" "" question) = 0%nat
    ∧ (fst (main B ui w) = Ok tt →
       ∃ model chat_text context reply,
         tail = [ {| role := assistant; content := reply |} ]
         ∧ In (EvComplete model
                 (prompt_template chat_text context (replace "'" "" question)))
              (trace (snd (main B ui w)))
         ∧ ∃ w1 w2,
             build_prompt B (replace "'" "" question) w1
             = (Ok (prompt_template chat_text context
                      (replace "'" "" question)), w2)).
Proof.
  intros Hmd Htr Hq Hne.
  destruct (setup_known_facts B ui w md Hmd) as (Hok & Hmd4 & Hm4 & _).
  rewrite main_split. unfold interact, mbind, M_bind.
  destruct (setup B ui w) as [[[]|e] w4]; cbn [fst snd] in *; [|done].
  set (base := if w_clear ui then [] else conversation w) in *.
  rewrite (chat_section_submitted B ui w4 md question Hmd4 Htr Hq Hne).
  rewrite (answer_run B question w4 base Hm4).
  set (w1 := in_session _ w4).
  pose proof (ro_build_prompt B (replace "'" "" question) w1) as H2.
  destruct (build_prompt B _ w1) as [[prompt|e] w2] eqn:Hbp; cbn [fst snd] in *.
  - pose proof (ro_complete B (model_name (session w2)) prompt w2) as H3.
    pose proof (complete_run B (model_name (session w2)) prompt w2) as Hc.
    destruct (complete B _ prompt w2) as [[reply|e] w3]; cbn [fst snd] in *.
    + exists [ {| role := assistant; content := reply |} ].
      set (w5 := in_session _ w3).
      pose proof (ro_summary_section B ui w5) as H6.
      pose proof (log_summary_section B ui w5) as (evs & Hevs & _).
      destruct (summary_section B ui w5) as [r w6]; cbn [fst snd] in *.
      unfold same_session in *.
      split; [unfold conversation; by rewrite H6|]. split; [eauto|].
      split; [apply strip_quotes_clean|]. intros _.
      destruct (build_prompt_inv B _ w1 w2 prompt Hbp)
        as (hist & summary & w1' & context & _ & _ & _ & Hp).
      exists (model_name (session w2)), (chat_text_of hist), context, reply.
      split; [done|]. split.
      * rewrite Hevs. subst w5. cbn [in_session trace].
        injection Hc as _ ->. rewrite <- Hp.
        apply in_or_app. left. apply in_or_app. right. by left.
      * exists w1, w2. by rewrite <- Hp.
    + exists []. unfold same_session in *.
      split; [unfold conversation; by rewrite H3, H2|]. split; [by left|].
      split; [apply strip_quotes_clean|]. done.
  - exists []. unfold same_session in *.
    split; [unfold conversation; by rewrite H2|]. split; [by left|].
    split; [apply strip_quotes_clean|]. done.
Qed.

Lemma question_is_stored_raw_and_prompted_unquoted_witness :
  ∃ tail,
    conversation
      (snd (main demo_backend (demo_widgets (Some "What's OWASP?")) (demo_world [])))
    = [] ++ {| role := user; content := "What's OWASP?" |} :: tail
    ∧ count_char "'" (replace "'" "" "What's OWASP?") = 0%nat.
Proof.
  destruct (question_is_stored_raw_and_prompted_unquoted demo_backend
              (demo_widgets (Some "What's OWASP?")) (demo_world [])
              demo_metadata "What's OWASP?" eq_refl eq_refl eq_refl eq_refl)
    as (tail & Hconv & _ & Hclean & _).
  exists tail. split; [exact Hconv|exact Hclean].
Defined.

(** C1 as stated fails: the question [What's OWASP?] is stored with its
    single quote.  In this run, the first of a conversation, the copy without
    the quote is what the search service and the prompt receive. *)
Lemma stored_question_keeps_single_quote :
  conversation
    (snd (main demo_backend (demo_widgets (Some "What's OWASP?")) (demo_world [])))
  = [ {| role := user; content := "What's OWASP?" |};
      {| role := assistant; content := "It costs \$5." |} ]
  ∧ count_char "'" "What's OWASP?" = 1%nat
  ∧ "What's OWASP?" ≠ "Whats OWASP?"
  ∧ ∃ prompt,
      trace (snd (main demo_backend (demo_widgets (Some "What's OWASP?"))
                    (demo_world [])))
      = [ EvSearch (Some "DOCS") "Whats OWASP?" [] ∅ 5;
          EvComplete (Some "mistral-large2") prompt ]
      ∧ occurs_in "<question>Whats OWASP?</question>" prompt = true.
Proof.
  split; [vm_compute; reflexivity|]. split; [reflexivity|].
  split; [discriminate|]. eexists. split; vm_compute; reflexivity.
Qed.

(** * Further properties of the script *)

(** ** [query_cortex]: every outcome *)

(** [query_cortex] in full: the search call is made first; the metadata
    lookup, the column lookup and the display follow. *)
Lemma query_cortex_run (B : Backend) (w : World) (query : string)
  (columns : list string) (filter : SearchFilter) :
  let svc := selected_cortex_search_service (session w) in
  let limit := num_retrieved_chunks (session w) in
  let w1 := {| session := session w;
               trace := trace w ++ [EvSearch svc query columns filter limit] |} in
  query_cortex B query columns filter w
  = match cortex_search B svc query columns filter limit with
    | Raise e => (Raise e, w1)
    | Ok results =>
        match service_metadata (session w) with
        | None => (Raise AttributeError, w1)
        | Some md =>
            match List.find (λ d, bool_decide (Some (name d) = svc)) md with
            | None => (Raise StopIteration, w1)
            | Some s =>
                match fst (for_each (render_block (str_lower B (search_column s)))
                             (enumerate results) w1) with
                | Raise e => (Raise e, w1)
                | Ok blocks =>
                    (Ok (join block_sep blocks),
                     if debug (session w)
                     then {| session := session w;
                             trace := trace w1
                                      ++ [EvContextDocuments (join block_sep blocks)] |}
                     else w1)
                end
            end
        end
    end.
Proof.
  intros svc limit w1. unfold query_cortex. run_script. fold svc limit. fold w1.
  destruct (cortex_search B svc query columns filter limit) as [results|e];
    cbn [fst snd session]; [|done].
  destruct (service_metadata (session w)) as [md|]; cbn [fst snd]; [|done].
  unfold find_search_column. fold svc.
  destruct (List.find _ md) as [s|]; run_script; [|done].
  destruct (for_each_render_block_pure (str_lower B (search_column s))
              (enumerate results)) as [r Hr].
  rewrite !Hr. cbn [fst snd]. destruct r as [blocks|e]; [|done].
  change (session w1) with (session w). by destruct (debug (session w)).
Qed.

(** A record without the column stops the rendering with [KeyError]. *)
Lemma for_each_render_block_missing (col : string)
  (results : list SearchRecord) (start : nat) (w : World) :
  Exists (λ r : SearchRecord, r !! col = None) results →
  for_each (render_block col) (enumerate_from start results) w
  = (Raise KeyError, w).
Proof.
  intros Hex. revert start.
  induction results as [|r results IH]; intros start; [by inversion Hex|].
  cbn [enumerate_from for_each]. unfold mbind, M_bind.
  assert (Hhead : render_block col (start, r) w
            = (match r !! col with
               | Some t => Ok (context_block start t)
               | None => Raise KeyError
               end, w)).
  { unfold render_block. cbn [fst snd]. by destruct (r !! col). }
  rewrite Hhead. destruct (r !! col) as [t|] eqn:Hr; [|done].
  rewrite IH; [done|]. inversion Hex; [congruence|done].
Qed.

(** X1.  Whatever happens, [query_cortex] calls the search service exactly
    once, for the selected service, with the query, columns and filter it
    was given and the chunk slider's value as limit; it leaves the session
    store alone, and the log gains that call followed at most by one
    display of the context. *)
Theorem query_cortex_one_search_call (B : Backend) (w : World) (query : string)
  (columns : list string) (filter : SearchFilter) :
  session (snd (query_cortex B query columns filter w)) = session w
  ∧ ∃ shown,
      trace (snd (query_cortex B query columns filter w))
      = trace w
        ++ EvSearch (selected_cortex_search_service (session w)) query columns
             filter (num_retrieved_chunks (session w))
           :: shown
      ∧ (shown = []
         ∨ (debug (session w) = true
            ∧ ∃ context,
                fst (query_cortex B query columns filter w) = Ok context
                ∧ shown = [EvContextDocuments context])).
Proof.
  rewrite query_cortex_run.
  destruct (cortex_search B _ query columns filter _) as [results|e];
    [|split; [done|exists []; split; [done|by left]]].
  destruct (service_metadata (session w)) as [md|];
    [|split; [done|exists []; split; [done|by left]]].
  destruct (List.find _ md) as [s|];
    [|split; [done|exists []; split; [done|by left]]].
  destruct (fst (for_each _ _ _)) as [blocks|e];
    [|split; [done|exists []; split; [done|by left]]].
  destruct (debug (session w)) eqn:Hd; cbn [fst snd session trace].
  - split; [done|]. exists [EvContextDocuments (join block_sep blocks)].
    split; [by rewrite <- app_assoc|]. right. split; [done|]. by eexists.
  - split; [done|]. exists []. split; [done|by left].
Qed.

(** X2.  When the selected service has no entry in the discovered metadata,
    [query_cortex] raises [StopIteration]; the search call has been made by
    then, and nothing is displayed. *)
Theorem query_cortex_unknown_service (B : Backend) (w : World) (query : string)
  (columns : list string) (filter : SearchFilter)
  (results : list SearchRecord) (md : list ServiceDescriptor) :
  cortex_search B (selected_cortex_search_service (session w)) query columns
    filter (num_retrieved_chunks (session w)) = Ok results →
  service_metadata (session w) = Some md →
  Forall (λ d, Some (name d) ≠ selected_cortex_search_service (session w)) md →
  query_cortex B query columns filter w
  = (Raise StopIteration,
     {| session := session w;
        trace := trace w
                 ++ [EvSearch (selected_cortex_search_service (session w)) query
                       columns filter (num_retrieved_chunks (session w))] |}).
Proof.
  intros Hsearch Hmd Hall. rewrite query_cortex_run, Hsearch, Hmd.
  assert (Hfind : List.find
            (λ d, bool_decide (Some (name d)
                               = selected_cortex_search_service (session w))) md
            = None).
  { clear Hmd. induction Hall as [|d md Hd _ IH]; [done|].
    cbn [List.find]. by rewrite bool_decide_eq_false_2. }
  by rewrite Hfind.
Qed.

(** X3.  The column read from each record is the search column of the
    selected service as [str.lower] returns it, whatever that is.  When some
    returned record has no such key,
    [query_cortex] raises [KeyError] after the search call, returns no
    partial context and displays nothing, debug or not. *)
Theorem query_cortex_missing_column (B : Backend) (w : World) (query : string)
  (columns : list string) (filter : SearchFilter)
  (results : list SearchRecord) (md : list ServiceDescriptor)
  (s : ServiceDescriptor) :
  cortex_search B (selected_cortex_search_service (session w)) query columns
    filter (num_retrieved_chunks (session w)) = Ok results →
  service_metadata (session w) = Some md →
  List.find
    (λ d, bool_decide (Some (name d) = selected_cortex_search_service (session w)))
    md = Some s →
  Exists (λ r : SearchRecord, r !! str_lower B (search_column s) = None) results →
  query_cortex B query columns filter w
  = (Raise KeyError,
     {| session := session w;
        trace := trace w
                 ++ [EvSearch (selected_cortex_search_service (session w)) query
                       columns filter (num_retrieved_chunks (session w))] |}).
Proof.
  intros Hsearch Hmd Hfind Hex. rewrite query_cortex_run, Hsearch, Hmd, Hfind.
  unfold enumerate. by rewrite (for_each_render_block_missing _ _ 0 _ Hex).
Qed.

Lemma query_cortex_unknown_service_witness :
  query_cortex demo_backend "What is OWASP?" [] ∅ demo_world_stale
  = (Raise StopIteration,
     {| session := session demo_world_stale;
        trace := [EvSearch (Some "DOCS") "What is OWASP?" [] ∅ 5] |}).
Proof.
  apply (query_cortex_unknown_service demo_backend demo_world_stale
           "What is OWASP?" [] ∅ demo_results
           [ {| name := "HANDBOOK"; search_column := "TEXT" |} ]
           eq_refl eq_refl).
  repeat constructor. discriminate.
Defined.

Lemma query_cortex_missing_column_witness :
  query_cortex upper_case_backend "What is OWASP?" [] ∅ (demo_world [])
  = (Raise KeyError,
     {| session := session (demo_world []);
        trace := [EvSearch (Some "DOCS") "What is OWASP?" [] ∅ 5] |}).
Proof.
  apply (query_cortex_missing_column upper_case_backend (demo_world [])
           "What is OWASP?" [] ∅ [ {[ "CHUNK" := "alpha" ]} ] demo_metadata
           {| name := "DOCS"; search_column := "CHUNK" |}
           eq_refl eq_refl eq_refl).
  constructor. vm_compute. reflexivity.
Defined.

(** ** [build_prompt]: with and without the rewrite *)

Lemma slice_short_window {A} (xs : list A) (n : Z) :
  n = 1 ∨ (length xs ≤ 1)%nat → 1 ≤ n → slice xs (- n) (-1) = [].
Proof.
  intros Hcase Hn. unfold slice, slice_bound.
  destruct (Z.ltb_spec (- n) 0) as [_|?]; [|lia].
  destruct (Z.ltb_spec (-1) 0) as [_|?]; [|lia].
  replace (Z.to_nat _) with 0%nat by lia. by rewrite take_0.
Qed.

(** With an empty window [build_prompt] is [query_cortex] on the question,
    wrapped in the template. *)
Lemma build_prompt_plain (B : Backend) (question : string) (w : World) :
  use_chat_history (session w) = false
  ∨ (∃ msgs, messages (session w) = Some msgs
             ∧ slice msgs (- num_chat_messages (session w)) (-1) = []) →
  build_prompt B question w
  = match query_cortex B question [] ∅ w with
    | (Ok context, w') => (Ok (prompt_template "" context question), w')
    | (Raise e, w') => (Raise e, w')
    end.
Proof.
  intros Hcase. unfold build_prompt, get_chat_history. run_script.
  destruct Hcase as [Hoff|(msgs & Hm & Hs)].
  - rewrite Hoff. cbn [fst snd truthy_list].
    by destruct (query_cortex B question [] ∅ w) as [[context|e] w'].
  - destruct (use_chat_history (session w)).
    + rewrite Hm. cbn [fst snd session]. rewrite Hs. cbn [fst snd truthy_list].
      by destruct (query_cortex B question [] ∅ w) as [[context|e] w'].
    + cbn [fst snd truthy_list].
      by destruct (query_cortex B question [] ∅ w) as [[context|e] w'].
Qed.

(** With a non-empty window [build_prompt] first asks the model to rewrite
    the question. *)
Lemma build_prompt_with_history (B : Backend) (question : string) (w : World)
  (msgs : list Turn) :
  let hist := slice msgs (- num_chat_messages (session w)) (-1) in
  let ask := summarize_template (chat_text_of hist) question in
  let w1 := {| session := session w;
               trace := trace w ++ [EvComplete (model_name (session w)) ask] |} in
  use_chat_history (session w) = true →
  messages (session w) = Some msgs →
  truthy_list hist = true →
  build_prompt B question w
  = match Complete B (model_name (session w)) ask with
    | Raise e => (Raise e, w1)
    | Ok text =>
        match query_cortex B (replace "$" "\$" text) [] ∅ w1 with
        | (Ok context, w') =>
            (Ok (prompt_template (chat_text_of hist) context question), w')
        | (Raise e, w') => (Raise e, w')
        end
    end.
Proof.
  intros hist ask w1 Hon Hm Htr. unfold build_prompt, get_chat_history.
  run_script. rewrite Hon, Hm. cbn [fst snd session]. fold hist. rewrite Htr.
  unfold summarize_chat. run_script. rewrite complete_run. fold ask. fold w1.
  destruct (Complete B (model_name (session w)) ask) as [text|e]; [|done].
  by destruct (query_cortex B _ [] ∅ w1) as [[context|e] w'].
Qed.

(** X4.  [build_prompt] skips the rewrite when the history toggle is off,
    when the history slider is at 1, or when the Conversation holds at most
    one turn (the first question): no completion call is made, the search
    query is the question as given, and the chat-history section of the
    prompt is empty. *)
Theorem build_prompt_without_history (B : Backend) (question : string)
  (w : World) :
  use_chat_history (session w) = false
  ∨ (∃ msgs, messages (session w) = Some msgs
             ∧ 1 ≤ num_chat_messages (session w)
             ∧ (num_chat_messages (session w) = 1 ∨ (length msgs ≤ 1)%nat)) →
  build_prompt B question w
  = match query_cortex B question [] ∅ w with
    | (Ok context, w') => (Ok (prompt_template "" context question), w')
    | (Raise e, w') => (Raise e, w')
    end.
Proof.
  intros [Hoff|(msgs & Hm & Hn & Hcase)]; apply build_prompt_plain; [by left|].
  right. exists msgs. split; [done|]. by apply slice_short_window.
Qed.

(** X5.  With the history toggle on and a non-empty window, the search
    query is not the question but the model's rewrite of it, with its dollar
    signs escaped by [complete]; the rewrite is requested with the user
    turns of the window, and the prompt still carries the question as
    given. *)
Theorem build_prompt_searches_rewritten_question (B : Backend)
  (question : string) (w : World) (msgs : list Turn) (text : string) :
  let hist := slice msgs (- num_chat_messages (session w)) (-1) in
  let ask := summarize_template (chat_text_of hist) question in
  let w1 := {| session := session w;
               trace := trace w ++ [EvComplete (model_name (session w)) ask] |} in
  use_chat_history (session w) = true →
  messages (session w) = Some msgs →
  truthy_list hist = true →
  Complete B (model_name (session w)) ask = Ok text →
  build_prompt B question w
  = match query_cortex B (replace "$" "\$" text) [] ∅ w1 with
    | (Ok context, w') =>
        (Ok (prompt_template (chat_text_of hist) context question), w')
    | (Raise e, w') => (Raise e, w')
    end.
Proof.
  intros hist ask w1 Hon Hm Htr Hc.
  rewrite (build_prompt_with_history B question w msgs Hon Hm Htr).
  fold hist. fold ask. by rewrite Hc.
Qed.

(** X6.  When the rewrite request fails, [build_prompt] raises that error
    and the search service is never called. *)
Theorem build_prompt_rewrite_failure (B : Backend) (question : string)
  (w : World) (msgs : list Turn) (e : Error) :
  let hist := slice msgs (- num_chat_messages (session w)) (-1) in
  let ask := summarize_template (chat_text_of hist) question in
  use_chat_history (session w) = true →
  messages (session w) = Some msgs →
  truthy_list hist = true →
  Complete B (model_name (session w)) ask = Raise e →
  build_prompt B question w
  = (Raise e,
     {| session := session w;
        trace := trace w ++ [EvComplete (model_name (session w)) ask] |}).
Proof.
  intros hist ask Hon Hm Htr Hc.
  rewrite (build_prompt_with_history B question w msgs Hon Hm Htr).
  fold hist. fold ask. by rewrite Hc.
Qed.

Lemma build_prompt_without_history_witness :
  build_prompt demo_backend "hello"
    (demo_world [ {| role := user; content := "hello" |} ])
  = match query_cortex demo_backend "hello" [] ∅
            (demo_world [ {| role := user; content := "hello" |} ]) with
    | (Ok context, w') => (Ok (prompt_template "" context "hello"), w')
    | (Raise e, w') => (Raise e, w')
    end.
Proof.
  apply (build_prompt_without_history demo_backend "hello"
           (demo_world [ {| role := user; content := "hello" |} ])).
  right. exists [ {| role := user; content := "hello" |} ].
  split; [reflexivity|]. split; [vm_compute; discriminate|].
  right. cbn [length]. lia.
Defined.

Lemma build_prompt_searches_rewritten_question_witness :
  build_prompt demo_backend "and OWASP?" (demo_world demo_exchange)
  = match query_cortex demo_backend "It costs \$5." [] ∅
            {| session := demo_session demo_exchange;
               trace := [EvComplete (Some "mistral-large2")
                           (summarize_template "hello" "and OWASP?")] |} with
    | (Ok context, w') =>
        (Ok (prompt_template "hello" context "and OWASP?"), w')
    | (Raise e, w') => (Raise e, w')
    end.
Proof.
  exact (build_prompt_searches_rewritten_question demo_backend "and OWASP?"
           (demo_world demo_exchange) demo_exchange "It costs $5."
           eq_refl eq_refl eq_refl eq_refl).
Defined.

Lemma build_prompt_rewrite_failure_witness :
  build_prompt silent_model_backend "and OWASP?" (demo_world demo_exchange)
  = (Raise (UpstreamError "model unavailable"),
     {| session := demo_session demo_exchange;
        trace := [EvComplete (Some "mistral-large2")
                    (summarize_template "hello" "and OWASP?")] |}).
Proof.
  exact (build_prompt_rewrite_failure silent_model_backend "and OWASP?"
           (demo_world demo_exchange) demo_exchange
           (UpstreamError "model unavailable") eq_refl eq_refl eq_refl eq_refl).
Defined.

(** ** [main]: a question and its reply *)

(** Without the summary button nothing happens after the chat section. *)
Lemma summary_section_idle (B : Backend) (ui : Widgets) (w : World)
  (msgs : list Turn) :
  w_summary ui = false →
  messages (session w) = Some msgs →
  summary_section B ui w = (Ok tt, w).
Proof.
  intros Hs Hm. unfold summary_section. run_script.
  by rewrite Hm, Hs, andb_false_r.
Qed.




(** ** Service discovery *)

Lemma for_each_describe_ok (B : Backend) (services cols : list string)
  (w : World) :
  Forall2 (λ svc col, ∃ more, desc_cortex_search_service B svc = Ok (col :: more))
    services cols →
  for_each (describe_service B) services w
  = (Ok (zip_with descriptor services cols),
     {| session := session w;
        trace := trace w ++ map EvDescService services |}).
Proof.
  intros Hall. revert w.
  induction Hall as [|svc col services cols [more Hd] _ IH]; intros w.
  - cbn. rewrite app_nil_r. by destruct w.
  - cbn [for_each zip_with map]. unfold mbind, M_bind.
    unfold describe_service at 1. run_script. rewrite Hd. cbn [fst snd].
    rewrite IH. cbn [fst snd session trace]. by rewrite <- app_assoc.
Qed.

Lemma descriptor_names (services cols : list string) :
  length services = length cols →
  map name (zip_with descriptor services cols) = services.
Proof.
  revert cols. induction services as [|svc services IH]; intros [|col cols] Hlen;
    try done. cbn. f_equal. apply IH. by injection Hlen.
Qed.

Lemma descriptor_columns (services cols : list string) :
  length services = length cols →
  map search_column (zip_with descriptor services cols) = cols.
Proof.
  revert cols. induction services as [|svc services IH]; intros [|col cols] Hlen;
    try done. cbn. f_equal. apply IH. by injection Hlen.
Qed.

(** X8.  In a session without metadata, when the backend lists the
    services and describes each of them, [init_service_metadata] stores one
    descriptor per service, in the order listed, holding the service name
    and the search column of the first row of its description; it asks for
    the list once and then for each description in that order. *)
Theorem discovery_keeps_backend_order (B : Backend) (w : World)
  (services cols : list string) :
  service_metadata (session w) = None →
  show_cortex_search_services B = Ok services →
  Forall2 (λ svc col, ∃ more, desc_cortex_search_service B svc = Ok (col :: more))
    services cols →
  ∃ metadata,
    init_service_metadata B w
    = (Ok tt,
       {| session := set_service_metadata metadata (session w);
          trace := trace w ++ EvShowServices :: map EvDescService services |})
    ∧ map name metadata = services
    ∧ map search_column metadata = cols.
Proof.
  intros Hmd Hshow Hall. exists (zip_with descriptor services cols).
  pose proof (Forall2_length _ _ _ Hall) as Hlen.
  split; [|split].
  - unfold init_service_metadata. run_script. rewrite Hmd, Hshow.
    cbn [fst snd]. rewrite (for_each_describe_ok B services cols _ Hall).
    cbn [fst snd session trace]. by rewrite <- app_assoc.
  - by apply descriptor_names.
  - by apply descriptor_columns.
Qed.

Lemma discovery_keeps_backend_order_witness :
  ∃ metadata,
    init_service_metadata demo_backend fresh_world
    = (Ok tt,
       {| session := set_service_metadata metadata fresh_session;
          trace := [EvShowServices; EvDescService "DOCS"] |})
    ∧ map name metadata = ["DOCS"]
    ∧ map search_column metadata = ["CHUNK"].
Proof.
  apply (discovery_keeps_backend_order demo_backend fresh_world
           ["DOCS"] ["CHUNK"] eq_refl eq_refl).
  repeat constructor. by exists [].
Defined.

(** X9.  Discovery is all or nothing.  When a listed service has no row in
    its description while the services before it are described,
    [init_service_metadata] raises [IndexError]: no metadata is stored, not
    even for the services already described, and the services after it are
    not asked about. *)
Theorem discovery_stops_at_undescribed_service (B : Backend) (w : World)
  (before after : list string) (cols : list string) (svc : string) :
  service_metadata (session w) = None →
  show_cortex_search_services B = Ok (before ++ svc :: after) →
  Forall2 (λ svc col, ∃ more, desc_cortex_search_service B svc = Ok (col :: more))
    before cols →
  desc_cortex_search_service B svc = Ok [] →
  init_service_metadata B w
  = (Raise IndexError,
     {| session := session w;
        trace := trace w
                 ++ EvShowServices :: map EvDescService (before ++ [svc]) |}).
Proof.
  intros Hmd Hshow Hall Hd. unfold init_service_metadata. run_script.
  rewrite Hmd, Hshow. cbn [fst snd].
  set (w1 := {| session := session w; trace := trace w ++ [EvShowServices] |}).
  assert (Hrun : for_each (describe_service B) (before ++ svc :: after) w1
            = (Raise IndexError,
               {| session := session w1;
                  trace := trace w1 ++ map EvDescService (before ++ [svc]) |})).
  { generalize w1. clear w1 Hshow Hmd.
    induction Hall as [|b col before cols [more Hb] _ IH]; intros w1.
    - cbn [app for_each map]. unfold mbind, M_bind.
      unfold describe_service at 1. run_script. by rewrite Hd.
    - cbn [app for_each map]. unfold mbind, M_bind.
      unfold describe_service at 1. run_script. rewrite Hb. cbn [fst snd].
      rewrite IH. cbn [fst snd session trace]. by rewrite <- app_assoc. }
  rewrite Hrun. subst w1. cbn [fst snd session trace]. by rewrite <- app_assoc.
Qed.

Lemma discovery_stops_at_undescribed_service_witness :
  init_service_metadata half_described_backend fresh_world
  = (Raise IndexError,
     {| session := fresh_session;
        trace := [EvShowServices; EvDescService "DOCS"; EvDescService "DRAFTS"] |}).
Proof.
  apply (discovery_stops_at_undescribed_service half_described_backend
           fresh_world ["DOCS"] [] ["CHUNK"] "DRAFTS" eq_refl eq_refl);
    [|reflexivity].
  repeat constructor. by exists [].
Defined.

(** X10.  When discovery fails, the run of [main] ends there with the same
    error: the widgets are not stored and the Conversation is not created
    or changed; only the name of an uploaded file may have been recorded. *)
Theorem main_stops_when_discovery_fails (B : Backend) (ui : Widgets)
  (w : World) (e : Error) :
  let w1 := snd (handle_uploaded_pdf (w_upload ui) w) in
  fst (init_service_metadata B w1) = Raise e →
  fst (main B ui w) = Raise e
  ∧ session (snd (main B ui w)) = session w1
  ∧ messages (session (snd (main B ui w))) = messages (session w)
  ∧ service_metadata (session (snd (main B ui w))) = service_metadata (session w).
Proof.
  intros w1 Hfail.
  assert (Hrun : main B ui w = (Raise e, snd (init_service_metadata B w1))).
  { unfold main, mbind, M_bind. subst w1. rewrite handle_uploaded_pdf_run in *.
    cbn [snd] in *. by destruct (init_service_metadata B _) as [[[]|e'] w2];
      cbn [fst snd] in *; simplify_eq. }
  pose proof (init_service_metadata_session B w1) as Hs. rewrite Hfail in Hs.
  rewrite Hrun. cbn [fst snd]. rewrite Hs. split; [done|]. split; [done|].
  subst w1. rewrite handle_uploaded_pdf_run. cbn [snd session].
  by destruct (w_upload ui).
Qed.

Lemma main_stops_when_discovery_fails_witness :
  fst (main half_described_backend (demo_widgets (Some "hello")) fresh_world)
  = Raise IndexError
  ∧ messages (session (snd (main half_described_backend
                              (demo_widgets (Some "hello")) fresh_world)))
    = None.
Proof.
  destruct (main_stops_when_discovery_fails half_described_backend
              (demo_widgets (Some "hello")) fresh_world IndexError eq_refl)
    as (Hr & _ & Hm & _).
  split; [exact Hr|exact Hm].
Defined.

(** ** What stays true from run to run *)

#[global] Instance guarded_preorder (I : SessionState → Prop) (P : Event → Prop) :
  PreOrder (guarded I P).
Proof.
  split.
  - intros w Hw. split; [done|]. exists []. by rewrite app_nil_r.
  - intros w1 w2 w3 H12 H23 H1.
    destruct (H12 H1) as (H2 & e1 & Ht1 & F1).
    destruct (H23 H2) as (H3 & e2 & Ht2 & F2).
    split; [done|]. exists (e1 ++ e2).
    split; [by rewrite Ht2, Ht1, app_assoc|]. by apply Forall_app.
Qed.

Lemma emit_guarded (I : SessionState → Prop) (P : Event → Prop) (ev : Event) :
  P ev → steps (guarded I P) (emit ev).
Proof.
  intros Hev w Hw. split; [done|]. exists [ev]. split; [done|]. by constructor.
Qed.

Lemma modify_guarded (I : SessionState → Prop) (P : Event → Prop)
  (h : SessionState → SessionState) :
  (∀ s, I s → I (h s)) → steps (guarded I P) (modify h).
Proof.
  intros Hh w Hw. split; [by apply Hh|]. exists []. cbn. by rewrite app_nil_r.
Qed.

(** A relation kept by every run of [main] is kept by any sequence of
    runs. *)
Lemma run_all_steps (R : relation World) `{!PreOrder R}
  (steps_list : list (Backend * Widgets)) (w : World) :
  (∀ B ui, steps R (main B ui)) → R w (run_all steps_list w).
Proof.
  intros Hmain. revert w.
  induction steps_list as [|[B ui] rest IH]; intros w; [reflexivity|].
  cbn [run_all]. etrans; [apply (Hmain B ui w)|apply IH].
Qed.

(** With the metadata in place, discovery keeps it and logs nothing. *)
Lemma init_service_metadata_guarded (B : Backend) (md : list ServiceDescriptor) :
  steps (guarded (λ s, service_metadata s = Some md) not_discovery)
    (init_service_metadata B).
Proof.
  intros w Hw. rewrite (init_service_metadata_known B w md Hw).
  split; [done|]. exists []. by rewrite app_nil_r.
Qed.

Lemma main_keeps_metadata (B : Backend) (ui : Widgets)
  (md : list ServiceDescriptor) :
  steps (guarded (λ s, service_metadata s = Some md) not_discovery) (main B ui).
Proof.
  unfold main.
  apply steps_bind; [typeclasses eauto| |intros ?].
  { unfold handle_uploaded_pdf. destruct (w_upload ui).
    - apply modify_guarded. by intros ? ?.
    - apply steps_skip. typeclasses eauto. }
  apply steps_bind; [typeclasses eauto|apply init_service_metadata_guarded|].
  intros ?.
  unfold init_config, init_messages, answer, generate_summary, build_prompt,
    query_cortex, append_message.
  repeat first
    [ apply modify_guarded; by intros ? ?
    | apply emit_guarded; exact I
    | script_step ].
Qed.

Lemma main_keeps_pinned_empty (B : Backend) (ui : Widgets) :
  steps (guarded (λ s, default [] (pinned_messages s) = []) (λ _, True))
    (main B ui).
Proof.
  unfold main, handle_uploaded_pdf, init_service_metadata, init_config,
    init_messages, answer, generate_summary, build_prompt, query_cortex,
    append_message.
  repeat first
    [ apply modify_guarded; by intros ? ?
    | apply emit_guarded; exact I
    | script_step ].
Qed.

(** X11.  Service discovery happens once per session.  Once the metadata is
    stored, no sequence of runs changes it, and none of them sends the
    listing or describing statements to the backend again. *)
Theorem metadata_is_discovered_once (steps_list : list (Backend * Widgets))
  (w : World) (md : list ServiceDescriptor) :
  service_metadata (session w) = Some md →
  service_metadata (session (run_all steps_list w)) = Some md
  ∧ ∃ evs, trace (run_all steps_list w) = trace w ++ evs
           ∧ Forall not_discovery evs.
Proof.
  intros Hmd.
  apply (run_all_steps
           (guarded (λ s, service_metadata s = Some md) not_discovery)
           steps_list w); [|done].
  intros B ui. apply main_keeps_metadata.
Qed.

Lemma metadata_is_discovered_once_witness :
  service_metadata
    (session (run_all [(bare_backend, demo_widgets (Some "What is OWASP?"))]
                (demo_world [])))
  = Some demo_metadata.
Proof.
  exact (proj1 (metadata_is_discovered_once
                  [(bare_backend, demo_widgets (Some "What is OWASP?"))]
                  (demo_world []) demo_metadata eq_refl)).
Defined.

(** X12.  The script never pins a message: if the pinned messages are
    absent or empty, they are absent or empty after any sequence of runs,
    whatever the user does and whatever the backend answers. *)
Theorem pinned_messages_stay_empty (steps_list : list (Backend * Widgets))
  (w : World) :
  default [] (pinned_messages (session w)) = [] →
  default [] (pinned_messages (session (run_all steps_list w))) = [].
Proof.
  intros Hp.
  apply (run_all_steps
           (guarded (λ s, default [] (pinned_messages s) = []) (λ _, True))
           steps_list w); [|done].
  intros B ui. apply main_keeps_pinned_empty.
Qed.

Lemma pinned_messages_stay_empty_witness :
  default []
    (pinned_messages
       (session (run_all [(demo_backend, demo_widgets None);
                          (demo_backend, demo_widgets (Some "What is OWASP?"))]
                   fresh_world)))
  = [].
Proof.
  exact (pinned_messages_stay_empty
           [(demo_backend, demo_widgets None);
            (demo_backend, demo_widgets (Some "What is OWASP?"))]
           fresh_world eq_refl).
Defined.

(** ** The summary request and the download *)

Lemma fold_left_format (msgs : list Turn) (acc : string) :
  fold_left (λ acc m, acc +:+ format_turn m) msgs acc
  = acc +:+ formatted_history msgs.
Proof.
  unfold formatted_history. revert acc.
  induction msgs as [|m msgs IH]; intros acc; cbn [fold_left].
  - by rewrite string_app_nil_r.
  - rewrite IH. rewrite (IH ("" +:+ format_turn m)).
    change ("" +:+ format_turn m) with (format_turn m).
    by rewrite string_app_assoc.
Qed.

(** X13.  [generate_summary] reads the whole Conversation, not a window:
    it sends one completion request whose prompt holds one line per turn,
    in order, and leaves the session store alone.  What it returns is the
    model's text with its dollar signs escaped, passed through [strip]; a
    failure of the model is raised as it is.  Without a Conversation it
    raises [AttributeError] and calls nothing. *)
Theorem generate_summary_reads_whole_conversation (B : Backend) (w : World) :
  match messages (session w) with
  | None => generate_summary B w = (Raise AttributeError, w)
  | Some msgs =>
      let prompt := summary_template (formatted_history msgs) in
      snd (generate_summary B w)
      = {| session := session w;
           trace := trace w ++ [EvComplete (model_name (session w)) prompt] |}
      ∧ fst (generate_summary B w)
        = match Complete B (model_name (session w)) prompt with
          | Raise e => Raise e
          | Ok text => Ok (str_strip B (substitute_char "$" "\$" text))
          end
  end.
Proof.
  unfold generate_summary. run_script.
  destruct (messages (session w)) as [msgs|]; [|done].
  cbn [fst snd session]. fold (formatted_history msgs).
  rewrite complete_run.
  destruct (Complete B _ _) as [text|e]; cbn [fst snd]; [|done].
  split; [done|]. by rewrite (replace_single_char "$").
Qed.

Lemma capitalize_role (m : Turn) :
  capitalize (role_str (role m)) = (if is_user m then "User" else "Assistant").
Proof. unfold is_user. by destruct (role m). Qed.

(** X14.  The transcript offered for download and the history sent for
    summarising are the same text: one line [Role: content] per turn, in
    order, with [User] or [Assistant] as role.  They differ only in that
    the history ends with a newline. *)
Theorem download_matches_summary_history (msgs : list Turn) :
  msgs ≠ [] → formatted_history msgs = full_chat msgs +:+ nl.
Proof.
  unfold full_chat. induction msgs as [|m msgs IH]; [done|]. intros _.
  unfold formatted_history. cbn [fold_left map join].
  rewrite fold_left_format. cbn [String.append].
  unfold format_turn at 1. rewrite capitalize_role.
  destruct msgs as [|m' msgs].
  - unfold formatted_history. cbn [fold_left map].
    by rewrite string_app_nil_r, !string_app_assoc.
  - rewrite IH by done. cbn [map]. by rewrite !string_app_assoc.
Qed.

Lemma download_matches_summary_history_witness :
  formatted_history demo_exchange = full_chat demo_exchange +:+ nl.
Proof. apply download_matches_summary_history. discriminate. Defined.

(** ** Single quotes in the question *)

Lemma without_char_keeps_clean (a : ascii) (s : string) :
  count_char a s = 0%nat → without_char a s = s.
Proof.
  induction s as [|c s IH]; [done|]. cbn [count_char without_char].
  destruct (Ascii.eqb a c); [done|]. intros Hc. by rewrite IH.
Qed.

Lemma without_char_length (a : ascii) (s : string) :
  (String.length (without_char a s) + count_char a s)%nat = String.length s.
Proof.
  induction s as [|c s IH]; [done|]. cbn [count_char without_char].
  destruct (Ascii.eqb a c); cbn [String.length]; lia.
Qed.

Lemma substitute_char_empty (a : ascii) (s : string) :
  substitute_char a "" s = without_char a s.
Proof.
  induction s as [|c s IH]; [done|]. cbn [substitute_char without_char].
  rewrite IH. by destruct (Ascii.eqb a c).
Qed.

(** X15.  The question handed to [build_prompt] is the typed question
    without its single quotes and with every other character in place: it
    is shorter by the number of quotes, stripping it again changes nothing,
    and a question without single quotes is handed over unchanged. *)
Theorem quote_stripping_removes_only_quotes (question : string) :
  replace "'" "" question = without_char "'" question
  ∧ (String.length (replace "'" "" question) + count_char "'" question)%nat
    = String.length question
  ∧ replace "'" "" (replace "'" "" question) = replace "'" "" question
  ∧ (count_char "'" question = 0%nat → replace "'" "" question = question).
Proof.
  assert (Hr : ∀ s, replace "'" "" s = without_char "'" s).
  { intros s. by rewrite (replace_single_char "'"), substitute_char_empty. }
  split; [apply Hr|]. split; [rewrite Hr; apply without_char_length|]. split.
  - rewrite !Hr. apply without_char_keeps_clean.
    rewrite <- substitute_char_empty. apply substitute_char_delete.
  - intros Hc. rewrite Hr. by apply without_char_keeps_clean.
Qed.

(** ** [init_messages] and the sliders *)

(** X16.  [init_messages] is idempotent: running it again right away
    changes nothing more.  After it both the Conversation and the pinned
    messages exist, so the reads that follow in [main] cannot fail for a
    missing key. *)
Theorem init_messages_idempotent (w : World) :
  init_messages (snd (init_messages w)) = init_messages w
  ∧ is_Some (messages (session (snd (init_messages w))))
  ∧ is_Some (pinned_messages (session (snd (init_messages w)))).
Proof.
  rewrite !init_messages_run. cbn [fst snd session trace].
  destruct w as [[pinned msgs ? ? ? ? clear] tr]. cbn.
  destruct pinned, clear, msgs; cbn; eauto.
Qed.

Lemma slider_in_range (lo hi v : Z) : lo ≤ hi → lo ≤ slider lo hi v ≤ hi.
Proof. unfold slider. lia. Qed.

Lemma main_keeps_sliders_in_range (B : Backend) (ui : Widgets) :
  steps (guarded sliders_in_range (λ _, True)) (main B ui).
Proof.
  unfold main, handle_uploaded_pdf, init_service_metadata, init_config,
    init_messages, answer, generate_summary, build_prompt, query_cortex,
    append_message.
  repeat first
    [ apply modify_guarded; by intros ? ?
    | match goal with
      | |- steps _ (modify (store_widgets _ _)) =>
          apply modify_guarded; intros ? _; split; by apply slider_in_range
      end
    | apply emit_guarded; exact I
    | script_step ].
Qed.

(** X17.  The two sliders stay within 1..10: a session store whose slider
    values are in range (a fresh one has both at 5) keeps them in range
    through any sequence of runs, so the history window is always taken
    with a count between 1 and 10. *)
Theorem sliders_stay_in_range (steps_list : list (Backend * Widgets))
  (w : World) :
  sliders_in_range (session w) →
  sliders_in_range (session (run_all steps_list w)).
Proof.
  intros Hw.
  apply (run_all_steps (guarded sliders_in_range (λ _, True)) steps_list w);
    [|done].
  intros B ui. apply main_keeps_sliders_in_range.
Qed.

Lemma sliders_stay_in_range_witness :
  sliders_in_range
    (session (run_all
                [(demo_backend,
                  {| w_upload := None; w_dark_mode := false; w_service := "DOCS";
                     w_clear := false; w_debug := false;
                     w_use_chat_history := true; w_topic := "OWASP";
                     w_model := "llama3.1-8b"; w_chunks := 10;
                     w_chat_messages := 1; w_chat := None;
                     w_summary := false |})]
                fresh_world)).
Proof.
  apply sliders_stay_in_range. unfold sliders_in_range. cbn. lia.
Defined.

(** ** The uploaded file *)

Section Alike.
Context (erase : SessionState → SessionState).

Lemma alike_ret {A} (a : A) : alike erase (mret a) (mret a).
Proof. by intros w1 w2 H. Qed.

Lemma alike_skip : alike erase skip skip.
Proof. by intros w1 w2 H. Qed.

Lemma alike_raise {A} (e : Error) : alike erase (@raise A e) (raise e).
Proof. by intros w1 w2 H. Qed.

Lemma alike_lift {A} (r : Result A) : alike erase (lift r) (lift r).
Proof. by intros w1 w2 H. Qed.

Lemma alike_emit (ev : Event) : alike erase (emit ev) (emit ev).
Proof.
  intros w1 w2 [Ht Hs]. split; [done|]. split; cbn; [by rewrite Ht|done].
Qed.

Lemma alike_gets {A} (f : SessionState → A) :
  (∀ s, f (erase s) = f s) → alike erase (gets f) (gets f).
Proof.
  intros Hf w1 w2 [Ht Hs]. split; [|done]. unfold gets. cbn [fst].
  by rewrite <- (Hf (session w1)), Hs, Hf.
Qed.

Lemma alike_attr {A} (f : SessionState → option A) :
  (∀ s, f (erase s) = f s) → alike erase (attr f) (attr f).
Proof.
  intros Hf w1 w2 [Ht Hs]. unfold attr.
  assert (Heq : f (session w1) = f (session w2))
    by (by rewrite <- (Hf (session w1)), Hs, Hf).
  rewrite Heq. by destruct (f (session w2)).
Qed.

Lemma alike_modify (h : SessionState → SessionState) :
  (∀ s, erase (h s) = h (erase s)) → alike erase (modify h) (modify h).
Proof.
  intros Hh w1 w2 [Ht Hs]. split; [done|]. split; [done|].
  cbn. by rewrite !Hh, Hs.
Qed.

Lemma alike_bind {A C} (m1 m2 : M A) (k1 k2 : A → M C) :
  alike erase m1 m2 → (∀ a, alike erase (k1 a) (k2 a)) →
  alike erase (m1 ≫= k1) (m2 ≫= k2).
Proof.
  intros Hm Hk w1 w2 Hw. unfold mbind, M_bind.
  destruct (Hm w1 w2 Hw) as [Hr Hw'].
  destruct (m1 w1) as [r1 w1'], (m2 w2) as [r2 w2']. cbn [fst snd] in *.
  subst r2. destruct r1 as [a|e]; [by apply Hk|done].
Qed.

Lemma alike_for_each {A C} (f : A → M C) (xs : list A) :
  (∀ x, alike erase (f x) (f x)) → alike erase (for_each f xs) (for_each f xs).
Proof.
  intros Hf. induction xs as [|x xs IH]; cbn [for_each]; [apply alike_ret|].
  apply alike_bind; [apply Hf|]. intros y.
  apply alike_bind; [apply IH|]. intros ys. apply alike_ret.
Qed.
End Alike.

Ltac alike_step :=
  first
    [ apply alike_bind; [|intros ?]
    | apply alike_ret | apply alike_skip | apply alike_raise | apply alike_lift
    | apply alike_emit
    | apply alike_gets; reflexivity
    | apply alike_attr; reflexivity
    | apply alike_modify; intros ?; reflexivity
    | apply alike_for_each; intros ?
    | match goal with
      | |- alike _ (match ?x with _ => _ end) _ => destruct x
      end
    | progress unfold find_search_column, render_block, describe_service,
        complete, summarize_chat, get_chat_history, append_message ].

Lemma alike_handle_uploaded_pdf (file1 file2 : option string) :
  alike forget_upload (handle_uploaded_pdf file1) (handle_uploaded_pdf file2).
Proof.
  intros w1 w2 [Ht Hs]. rewrite !handle_uploaded_pdf_run. split; [done|].
  split; [done|]. cbn [snd session]. by destruct file1, file2.
Qed.

Lemma alike_main_upload (B : Backend) (ui : Widgets) (file1 file2 : option string) :
  alike forget_upload (main B (with_upload file1 ui)) (main B (with_upload file2 ui)).
Proof.
  unfold main. cbn [with_upload w_upload w_chat w_summary].
  apply alike_bind; [apply alike_handle_uploaded_pdf|]. intros ?.
  unfold init_service_metadata, init_config, init_messages, answer,
    generate_summary, build_prompt, query_cortex.
  repeat alike_step.
Qed.

Lemma main_keeps_upload (B : Backend) (ui : Widgets) (v : option string) :
  w_upload ui = None →
  steps (guarded (λ s, uploaded_pdf s = v) (λ _, True)) (main B ui).
Proof.
  intros Hnone.
  unfold main, handle_uploaded_pdf, init_service_metadata, init_config,
    init_messages, answer, generate_summary, build_prompt, query_cortex,
    append_message.
  rewrite Hnone.
  repeat first
    [ apply modify_guarded; by intros ? ?
    | apply emit_guarded; exact I
    | script_step ].
Qed.

(** X18.  An uploaded PDF is only recorded by name.  Two runs from the same
    world that differ only in the file offered by the uploader (another
    file, or none) return the same result, make the same calls to the search
    and completion services, and leave the same Conversation and the same
    session store apart from the recorded name; without an upload the
    recorded name is left as it was. *)
Theorem upload_is_only_recorded (B : Backend) (ui : Widgets)
  (file1 file2 : option string) (w : World) :
  let r1 := main B (with_upload file1 ui) w in
  let r2 := main B (with_upload file2 ui) w in
  fst r1 = fst r2
  ∧ trace (snd r1) = trace (snd r2)
  ∧ conversation (snd r1) = conversation (snd r2)
  ∧ forget_upload (session (snd r1)) = forget_upload (session (snd r2))
  ∧ uploaded_pdf (session (snd (main B (with_upload None ui) w)))
    = uploaded_pdf (session w).
Proof.
  intros r1 r2.
  assert (Hw : agree_upto forget_upload w w) by done.
  destruct (alike_main_upload B ui file1 file2 w w Hw) as [Hr [Ht Hs]].
  fold r1 r2 in Hr, Ht, Hs.
  split; [done|]. split; [done|]. split; [|split; [done|]].
  - unfold conversation. apply (f_equal messages) in Hs.
    cbn [forget_upload messages] in Hs. by rewrite Hs.
  - by apply (main_keeps_upload B (with_upload None ui)
                (uploaded_pdf (session w)) eq_refl w).
Qed.

(** ** Runs without a question *)

Lemma chat_section_idle (B : Backend) (ui : Widgets) (w : World)
  (md : list ServiceDescriptor) :
  service_metadata (session w) = Some md →
  w_chat ui = None ∨ w_chat ui = Some "" →
  chat_section B ui w = (Ok tt, w).
Proof.
  intros Hmd Hq. unfold chat_section. run_script. rewrite Hmd. cbn [fst snd].
  unfold chat_input.
  destruct Hq as [-> | ->]; by destruct (negb (truthy_list md)).
Qed.

(** X19.  In a session that knows its services, a run in which no question
    is submitted (or an empty one) and the summary button is not pressed
    succeeds without a single call to the backend: the log is unchanged,
    and the Conversation is as it was, or empty if the clear button was
    pressed. *)
Theorem idle_run_calls_nothing (B : Backend) (ui : Widgets) (w : World)
  (md : list ServiceDescriptor) :
  service_metadata (session w) = Some md →
  w_chat ui = None ∨ w_chat ui = Some "" →
  w_summary ui = false →
  fst (main B ui w) = Ok tt
  ∧ trace (snd (main B ui w)) = trace w
  ∧ conversation (snd (main B ui w))
    = (if w_clear ui then [] else conversation w).
Proof.
  intros Hmd Hq Hsum.
  destruct (setup_known_facts B ui w md Hmd) as (Hok & Hmd4 & Hm4 & Htr).
  rewrite main_split. unfold interact, mbind, M_bind.
  destruct (setup B ui w) as [[[]|e] w4]; cbn [fst snd] in *; [|done].
  rewrite (chat_section_idle B ui w4 md Hmd4 Hq).
  rewrite (summary_section_idle B ui w4 _ Hsum Hm4). cbn [fst snd].
  split; [done|]. split; [done|]. unfold conversation. by rewrite Hm4.
Qed.

Lemma idle_run_calls_nothing_witness :
  fst (main demo_backend (demo_widgets None) (demo_world demo_exchange)) = Ok tt
  ∧ trace (snd (main demo_backend (demo_widgets None) (demo_world demo_exchange)))
    = []
  ∧ conversation
      (snd (main demo_backend (demo_widgets None) (demo_world demo_exchange)))
    = demo_exchange.
Proof.
  exact (idle_run_calls_nothing demo_backend (demo_widgets None)
           (demo_world demo_exchange) demo_metadata eq_refl (or_introl eq_refl)
           eq_refl).
Defined.

(** ** Clearing the chat, on the states the script reaches *)





